(** * learn-transcription: diarization + transcription pipeline

    A shallow embedding of the orchestration code of the repository:
    - [src/app/st-app.py]: [load_models], [process_audio], the transcript
      download and the session handling of [main];
    - [src/programs/main.py]: the batch script;
    - [src/programs/diarize.py]: the diarization-only script.

    The pretrained models and the libraries that wrap them (pyannote,
    whisper, librosa) are outside the repository. They enter as the
    variables of [Section Pipeline]: fixed functions of their arguments that
    either return a value or raise a Python exception. Everything the
    repository itself does (slicing, stripping, filtering, formatting,
    session state, temporary files, caching decorators) is written out. *)

From Stdlib Require Import ZArith Ascii String List Bool Lia.
From Stdlib Require Import Floats.SpecFloat.
From stdpp Require Import base option list strings pretty gmap fin_maps.

Local Open Scope string_scope.
Local Open Scope Z_scope.

(** ** Python strings

    A [str] is modelled by its UTF-8 encoding, one [ascii] per byte. *)
Module PyStr.

Definition byte (n : N) : ascii := ascii_of_N n.

Definition byte_in (c : ascii) (lo hi : N) : bool :=
  ((lo <=? N_of_ascii c) && (N_of_ascii c <=? hi))%N.

(** The characters for which [str.isspace] holds, each with its encoding:
    U+0009..U+000D and U+001C..U+0020 (one byte), U+0085 and U+00A0 (C2 . ),
    U+1680 (E1 9A 80), U+2000..U+200A, U+2028, U+2029, U+202F (E2 80 . ),
    U+205F (E2 81 9F) and U+3000 (E3 80 80). [space_prefix s] is what
    follows the white-space character [s] starts with, if it starts
    with one. *)
Definition space_prefix (s : string) : option string :=
  match s with
  | String c1 r1 =>
      if byte_in c1 9 13 || byte_in c1 28 32 then Some r1
      else
        match r1 with
        | String c2 r2 =>
            if byte_in c1 194 194 && (byte_in c2 133 133 || byte_in c2 160 160)
            then Some r2
            else
              match r2 with
              | String c3 r3 =>
                  if byte_in c1 225 225 && byte_in c2 154 154 && byte_in c3 128 128
                     || byte_in c1 226 226 && byte_in c2 128 128
                        && (byte_in c3 128 138 || byte_in c3 168 169
                            || byte_in c3 175 175)
                     || byte_in c1 226 226 && byte_in c2 129 129 && byte_in c3 159 159
                     || byte_in c1 227 227 && byte_in c2 128 128 && byte_in c3 128 128
                  then Some r3
                  else None
              | EmptyString => None
              end
        | EmptyString => None
        end
  | EmptyString => None
  end.

(** [s.lstrip()]; the fuel is the number of bytes, and each step removes
    at least one *)
Fixpoint lstrip_fuel (fuel : nat) (s : string) : string :=
  match fuel with
  | O => s
  | S fuel' =>
      match space_prefix s with
      | Some rest => lstrip_fuel fuel' rest
      | None => s
      end
  end.

Definition lstrip (s : string) : string := lstrip_fuel (String.length s) s.

(** only white space: nothing is left of [s] once stripped on the left *)
Definition blank (s : string) : bool :=
  match lstrip s with EmptyString => true | _ => false end.

(** [s.rstrip()]: the longest suffix of white-space characters is cut *)
Fixpoint rstrip (s : string) : string :=
  match s with
  | EmptyString => EmptyString
  | String c s' => if blank s then EmptyString else String c (rstrip s')
  end.

(** [s.strip()] *)
Definition strip (s : string) : string := rstrip (lstrip s).

(** truth value of a [str]: [if s:] *)
Definition truthy (s : string) : bool :=
  match s with EmptyString => false | _ => true end.

(** [sep.join(parts)] *)
Fixpoint join (sep : string) (parts : list string) : string :=
  match parts with
  | [] => ""
  | [p] => p
  | p :: rest => p ++ sep ++ join sep rest
  end.

Definition newline : string := String (ascii_of_nat 10) EmptyString.

(** [os.path.join(a, b)] for a relative component [b]. *)
Definition ends_with_slash (a : string) : bool :=
  match String.rev a with
  | String c _ => if decide (c = "/"%char) then true else false
  | EmptyString => false
  end.

Definition path_join (a b : string) : string :=
  match a with
  | EmptyString => b
  | _ => if ends_with_slash a then a ++ b else a ++ "/" ++ b
  end.

End PyStr.

(** ** Python floats

    A Python [float] is an IEEE 754 binary64 number: the values of
    [spec_float] that are valid for precision 53 and exponent bound 1024.
    Multiplication is the rounded one of [SpecFloat]. *)
Module PyFloat.

Definition prec : Z := 53.
Definition emax : Z := 1024.

Definition t : Type := spec_float.

(** the float nearest to [m * 2^e] (ties to even) *)
Definition of_scaled (m e : Z) : t := binary_normalize prec emax m e false.

Definition mul (x y : t) : t := SFmul prec emax x y.

(** Truncation toward zero of a finite float; [None] on infinities and
    NaN, where [int()] raises. *)
Definition trunc (x : t) : option Z :=
  match x with
  | S754_zero _ => Some 0
  | S754_finite s m e =>
      let a := if 0 <=? e then Z.pos m * 2 ^ e else Z.pos m / 2 ^ (- e) in
      Some (if s then - a else a)
  | S754_infinity _ | S754_nan => None
  end.

(** [a * 2^e] rounded to the nearest integer, ties to even ([0 <= a]) *)
Definition round_half_even (a e : Z) : Z :=
  if 0 <=? e then a * 2 ^ e
  else
    let d := 2 ^ (- e) in
    let q := a / d in
    let r := a mod d in
    if 2 * r <? d then q
    else if d <? 2 * r then q + 1
    else if Z.even q then q else q + 1.

Fixpoint zeros (n : nat) : string :=
  match n with O => "" | S n' => "0" ++ zeros n' end.

(** the decimal digits of [n], left-padded with zeros to [width] *)
Definition pad_digits (width : nat) (n : Z) : string :=
  let s := pretty (Z.to_N n) in
  zeros (width - String.length s) ++ s.

Definition fixed_of_scaled (digits : nat) (n : Z) : string :=
  let p := 10 ^ Z.of_nat digits in
  pretty (Z.to_N (n / p)) ++
  match digits with
  | O => ""
  | _ => "." ++ pad_digits digits (n mod p)
  end.

(** [format(x, ".<digits>f")]: the exact value rounded half-even at the
    requested decimal place. *)
Definition format_f (digits : nat) (x : t) : string :=
  match x with
  | S754_nan => "nan"
  | S754_infinity s => if s then "-inf" else "inf"
  | S754_zero s => (if s then "-" else "") ++ fixed_of_scaled digits 0
  | S754_finite s m e =>
      (if s then "-" else "") ++
      fixed_of_scaled digits
        (round_half_even (Z.pos m * 10 ^ Z.of_nat digits) e)
  end.

End PyFloat.

(** ** Python sequences: [y[a:b]] *)
Module PySlice.

(** a slice bound is clamped into [0, n]; a negative bound counts from the
    end *)
Definition bound (n i : Z) : Z :=
  if i <? 0 then Z.max 0 (i + n) else Z.min i n.

Definition slice {A : Type} (y : list A) (a b : Z) : list A :=
  let n := Z.of_nat (length y) in
  let lo := bound n a in
  let hi := bound n b in
  take (Z.to_nat (hi - lo)) (drop (Z.to_nat lo) y).

End PySlice.

(** ** Exceptions, outcomes and the wrapped libraries *)

(** [Exception cls msg] is an instance of a subclass of Python's [Exception]
    with [str(e) = msg]. [st.stop()] and [st.rerun()] raise Streamlit's
    script-control exceptions, which derive from [BaseException] and are
    not caught by [except Exception]. *)
Inductive exn : Type :=
  | Exception (cls msg : string)
  | StopException
  | RerunException.

Inductive outcome (A : Type) : Type :=
  | Return (a : A)
  | Raise (e : exn).
Arguments Return {A} a.
Arguments Raise {A} e.

(** What a call into a wrapped library does: it returns a value or raises
    an [Exception]. *)
Inductive external (A : Type) : Type :=
  | Returns (a : A)
  | Throws (cls msg : string).
Arguments Returns {A} a.
Arguments Throws {A} cls msg.

Definition sample : Type := PyFloat.t.

(** [pyannote.core.Segment] *)
Record Segment : Type := { start : PyFloat.t; end_ : PyFloat.t }.

(** one item of [diarization.itertracks(yield_label=True)]:
    (segment, track name, speaker label) *)
Definition track : Type := Segment * string * string.

(** the diarization result, as the sequence [itertracks] walks *)
Definition Annotation : Type := list track.

Definition itertracks (d : Annotation) : list (Segment * string) :=
  map (fun tr => (tr.1.1, tr.1.2)) d.

Definition itertracks_yield_label (d : Annotation) : list track := d.

(** [diarization_pipeline(audio_path)] *)
Definition pipeline : Type := string -> external Annotation.

(** [transcription_model.transcribe(segment, fp16=False)["text"]] *)
Definition whisper_model : Type := list sample -> external string.

(** The record [process_audio] appends for a turn. *)
Record segment : Type := {
  seg_start : PyFloat.t;
  seg_end : PyFloat.t;
  seg_speaker : string;
  seg_text : string
}.

Global Instance spec_float_eq_dec : EqDecision spec_float.
Proof. solve_decision. Defined.

Global Instance segment_eq_dec : EqDecision segment.
Proof. solve_decision. Defined.

(** ** The world a script runs in *)

Inductive event : Type :=
  (* Streamlit elements *)
  | StError (msg : string)
  | StSuccess (msg : string)
  | StWarning (msg : string)
  | StInfo (msg : string)
  | StSpinner (msg : string)
  | StProgressBar (value : Z)
  | StProgress (num den : Z)
  | StProgressEmpty
  | StElement (kind body : string)
  | StAudio (audio_bytes : string)
  | StSegmentCard (color speaker start_s end_s text : string)
  | StDownloadButton (label data file_name mime : string)
  (* calls into the wrapped libraries *)
  | TorchSetNumThreads (n : Z)
  | PipelineFromPretrained (name : string) (use_auth_token : option string)
  | WhisperLoadModel (name device : string)
  | RunPipeline (audio_path : string)
  | LibrosaLoad (audio_path : string) (sr : Z)
  | Transcribe (samples : list sample)
  | SoundfileWrite (samples : list sample) (sample_rate : Z)
  | WriteRttm (path : string)
  (* console *)
  | PrintLine (line : string).

(** An attribute of [st.session_state]: not set yet, [None], or a value. *)
Inductive slot (T : Type) : Type :=
  | Missing
  | PyNone
  | Value (v : T).
Arguments Missing {T}.
Arguments PyNone {T}.
Arguments Value {T} v.

Record session_state : Type := {
  processed_segments : slot (list segment);
  processed_audio_data : slot (list sample);
  processed_sample_rate : slot Z;
  processed_file_name : slot string
}.

Definition process_result : Type := list segment * list sample * Z.

Record world : Type := {
  trace : list event;                        (* what was shown and called, oldest first *)
  environ : gmap string string;              (* os.environ after load_dotenv *)
  files : gmap string string;                (* file contents by path *)
  dirs : gset string;                        (* existing directories *)
  session : session_state;                   (* st.session_state *)
  resource_cache : option (pipeline * whisper_model);  (* @st.cache_resource of load_models *)
  data_cache : gmap string process_result    (* @st.cache_data of process_audio, by audio_path *)
}.

Definition with_trace (t : list event) (w : world) : world :=
  {| trace := t; environ := environ w; files := files w; dirs := dirs w;
     session := session w; resource_cache := resource_cache w;
     data_cache := data_cache w |}.

Definition with_files (f : gmap string string) (w : world) : world :=
  {| trace := trace w; environ := environ w; files := f; dirs := dirs w;
     session := session w; resource_cache := resource_cache w;
     data_cache := data_cache w |}.

Definition with_dirs (d : gset string) (w : world) : world :=
  {| trace := trace w; environ := environ w; files := files w; dirs := d;
     session := session w; resource_cache := resource_cache w;
     data_cache := data_cache w |}.

Definition with_session (s : session_state) (w : world) : world :=
  {| trace := trace w; environ := environ w; files := files w; dirs := dirs w;
     session := s; resource_cache := resource_cache w;
     data_cache := data_cache w |}.

Definition with_resource_cache (c : option (pipeline * whisper_model)) (w : world) : world :=
  {| trace := trace w; environ := environ w; files := files w; dirs := dirs w;
     session := session w; resource_cache := c;
     data_cache := data_cache w |}.

Definition with_data_cache (c : gmap string process_result) (w : world) : world :=
  {| trace := trace w; environ := environ w; files := files w; dirs := dirs w;
     session := session w; resource_cache := resource_cache w;
     data_cache := c |}.

(** ** The monad of a script: state plus exceptions *)

Definition M (A : Type) : Type := world -> outcome A * world.

Global Instance M_ret : MRet M := fun A a w => (Return a, w).

Global Instance M_bind : MBind M := fun A B f m w =>
  match m w with
  | (Return a, w') => f a w'
  | (Raise e, w') => (Raise e, w')
  end.

Definition raise {A : Type} (e : exn) : M A := fun w => (Raise e, w).

Definition emit (ev : event) : M unit :=
  fun w => (Return tt, with_trace (trace w ++ [ev]) w).

Definition gets {A : Type} (f : world -> A) : M A := fun w => (Return (f w), w).

Definition modify (f : world -> world) : M unit := fun w => (Return tt, f w).

(** the result of a library call, as the caller sees it *)
Definition lift {A : Type} (x : external A) : M A :=
  match x with
  | Returns a => mret a
  | Throws cls msg => raise (Exception cls msg)
  end.

(** [try: body / except Exception as e: handler(e)] *)
Definition try_except {A : Type} (body : M A) (handler : string -> string -> M A) : M A :=
  fun w =>
    match body w with
    | (Raise (Exception cls msg), w') => handler cls msg w'
    | r => r
    end.

(** [try: body / finally: final] *)
Definition try_finally {A : Type} (body : M A) (final : M unit) : M A :=
  fun w =>
    let '(r, w') := body w in
    match final w' with
    | (Return _, w'') => (r, w'')
    | (Raise e, w'') => (Raise e, w'')
    end.

Definition when (b : bool) (m : M unit) : M unit := if b then m else mret tt.

(** *** Streamlit *)

Definition st_error (msg : string) : M unit := emit (StError msg).
Definition st_success (msg : string) : M unit := emit (StSuccess msg).
Definition st_warning (msg : string) : M unit := emit (StWarning msg).
Definition st_info (msg : string) : M unit := emit (StInfo msg).
Definition st_spinner (msg : string) : M unit := emit (StSpinner msg).
Definition st_element (kind body : string) : M unit := emit (StElement kind body).
Definition st_stop {A : Type} : M A := raise StopException.
Definition st_rerun {A : Type} : M A := raise RerunException.

(** [bar.progress(num / den)]: the division raises on a zero divisor, and
    the widget rejects a float outside [0.0, 1.0]. *)
Definition progress_fraction (num den : Z) : M unit :=
  if den =? 0 then raise (Exception "ZeroDivisionError" "division by zero")
  else if (0 <=? num * Z.sgn den) && (Z.abs num <=? Z.abs den)
  then emit (StProgress num den)
  else raise (Exception "StreamlitAPIException"
                "Progress Value has invalid value [0.0, 1.0]").

(** [@st.cache_resource] on a function without arguments *)
Definition cache_resource (f : M (pipeline * whisper_model)) : M (pipeline * whisper_model) :=
  fun w =>
    match resource_cache w with
    | Some r => (Return r, w)
    | None =>
        match f w with
        | (Return r, w') => (Return r, with_resource_cache (Some r) w')
        | (Raise e, w') => (Raise e, w')
        end
    end.

(** [@st.cache_data] on a function whose only hashed argument is
    [audio_path] (the two model arguments start with an underscore). On a
    hit the body does not run and the stored value is returned; the trace
    does not record what Streamlit redraws of the page on a hit. *)
Definition cache_data (f : string -> M process_result) (audio_path : string) : M process_result :=
  fun w =>
    match data_cache w !! audio_path with
    | Some r => (Return r, w)
    | None =>
        match f audio_path w with
        | (Return r, w') =>
            (Return r, with_data_cache (<[audio_path := r]> (data_cache w')) w')
        | (Raise e, w') => (Raise e, w')
        end
    end.

(** *** Conversions the scripts apply to a turn *)

(** [float(n)] for an [int] operand of a float operation *)
Definition py_float_of_int (n : Z) : external PyFloat.t :=
  match PyFloat.of_scaled n 0 with
  | S754_infinity _ => Throws "OverflowError" "int too large to convert to float"
  | x => Returns x
  end.

(** [int(x)] for a float [x] *)
Definition py_int (x : PyFloat.t) : external Z :=
  match x, PyFloat.trunc x with
  | _, Some n => Returns n
  | S754_nan, None => Throws "ValueError" "cannot convert float NaN to integer"
  | _, None => Throws "OverflowError" "cannot convert float infinity to integer"
  end.

(** [int(t * sr)] *)
Definition sample_index (t : PyFloat.t) (sr : Z) : external Z :=
  match py_float_of_int sr with
  | Returns srf => py_int (PyFloat.mul t srf)
  | Throws cls msg => Throws cls msg
  end.

(** [f"[{start_time:.2f}s --> {end_time:.2f}s] {speaker}: {text}"] *)
Definition transcript_line (start_time end_time : PyFloat.t) (speaker text : string) : string :=
  "[" ++ PyFloat.format_f 2 start_time ++ "s --> " ++
  PyFloat.format_f 2 end_time ++ "s] " ++ speaker ++ ": " ++ text.

(** [len(set(seg['speaker'] for seg in segments))] *)
Definition speaker_count (segments : list segment) : nat :=
  length (remove_dups (map seg_speaker segments)).

Definition hf_missing_message : string :=
  "HF_TOKEN not found in environment variables. Please add it to your .env file.".

Definition diarization_model_name : string := "pyannote/speaker-diarization-3.1".

(** the closing [st.markdown] text of the upload page *)
Definition about_markdown : string := "
        ### 🔍 What this app does:
        1. **Upload**: Choose a WAV audio file
        2. **Process**: Click the process button to start analysis
        3. **Diarize**: Identify different speakers in the conversation
        4. **Transcribe**: Convert speech to text for each speaker
        5. **Interact**: Navigate through timestamps with highlighting
        6. **Analyze**: View speaker statistics and grouped transcriptions
        
        ### 🎮 Navigation Features:
        - **Slider**: Drag to navigate through the timeline
        - **Quick buttons**: Jump to start/end or skip ±10 seconds
        - **Click segments**: Click any transcript segment to jump to that time
        ".

(** ** The wrapped libraries

    Fixed functions of their arguments; the audio behind a path is part of
    that fixed behaviour. *)
Record Libraries : Type := {
  (* [Path(__file__).parent.parent], as a string *)
  ROOT_FOLDER : string;
  (* [Pipeline.from_pretrained(name, use_auth_token=token)] *)
  Pipeline_from_pretrained : string -> option string -> external pipeline;
  (* [whisper.load_model(name, device=device)] *)
  whisper_load_model : string -> string -> external whisper_model;
  (* [librosa.load(path, sr=sr)], returning [(y, sr)] *)
  librosa_load : string -> Z -> external (list sample * Z);
  (* [sf.write(buffer, np.array(audio_data), sample_rate, format="WAV")],
     returning the buffer's bytes *)
  soundfile_write : slot (list sample) -> slot Z -> external string
}.

(** What the library documents for [librosa.load] with an explicit [sr]:
    the waveform is resampled and the returned rate is the requested one. *)
Definition librosa_returns_requested_rate (lib : Libraries) : Prop :=
  forall path sr y sr', librosa_load lib path sr = Returns (y, sr') -> sr' = sr.

(** One run of the Streamlit script: what the browser sent and the name
    [tempfile.NamedTemporaryFile] picks if it is asked. *)
Record interaction : Type := {
  uploaded_file : option (string * string);   (* [name], [getvalue()] *)
  process_button : bool;
  clear_button : bool;
  tmp_path : string
}.

Section Pipeline.

Context (lib : Libraries).

(** *** [src/app/st-app.py] *)

(** [load_models], without its decorator *)
Definition load_models : M (pipeline * whisper_model) :=
  hf_token ← gets (fun w => environ w !! "HF_TOKEN") ;
  when (negb (from_option PyStr.truthy false hf_token))
       (st_error hf_missing_message ;; st_stop) ;;
  let device := "cpu" in
  emit (TorchSetNumThreads 4) ;;
  emit (PipelineFromPretrained diarization_model_name hf_token) ;;
  diarization_pipeline ← lift (Pipeline_from_pretrained lib diarization_model_name hf_token) ;
  emit (WhisperLoadModel "base" device) ;;
  transcription_model ← lift (whisper_load_model lib "base" device) ;
  mret (diarization_pipeline, transcription_model).

(** the body of the [for] loop of [process_audio], for the turn at index
    [i], and the rest of the loop *)
Fixpoint transcribe_segments (_transcription_model : whisper_model)
    (y : list sample) (sr : Z) (total_segments : Z)
    (i : Z) (tracks : list track) (segments : list segment) : M (list segment) :=
  match tracks with
  | [] => mret segments
  | (turn, _, speaker) :: rest =>
      let start_time := start turn in
      let end_time := end_ turn in
      start_sample ← lift (sample_index start_time sr) ;
      end_sample ← lift (sample_index end_time sr) ;
      let segment := PySlice.slice y start_sample end_sample in
      emit (Transcribe segment) ;;
      text ← lift (_transcription_model segment) ;
      let transcribed_text := PyStr.strip text in
      let segments :=
        if PyStr.truthy transcribed_text
        then (segments ++ [ {| seg_start := start_time; seg_end := end_time;
                               seg_speaker := speaker;
                               seg_text := transcribed_text |} ])%list
        else segments in
      progress_fraction (i + 1) total_segments ;;
      transcribe_segments _transcription_model y sr total_segments (i + 1) rest segments
  end.

(** [process_audio], without its decorator *)
Definition process_audio (_diarization_pipeline : pipeline)
    (_transcription_model : whisper_model) (audio_path : string) : M process_result :=
  st_spinner "Performing speaker diarization..." ;;
  emit (RunPipeline audio_path) ;;
  diarization ← lift (_diarization_pipeline audio_path) ;
  st_spinner "Loading audio for transcription..." ;;
  emit (LibrosaLoad audio_path 16000) ;;
  '(y, sr) ← lift (librosa_load lib audio_path 16000) ;
  let total_segments := Z.of_nat (length (itertracks diarization)) in
  emit (StProgressBar 0) ;;
  st_spinner "Transcribing segments..." ;;
  segments ← transcribe_segments _transcription_model y sr total_segments 0
               (itertracks_yield_label diarization) [] ;
  emit StProgressEmpty ;;
  mret (segments, y, sr).

Definition create_audio_bytes (audio_data : slot (list sample)) (sample_rate : slot Z) : M string :=
  match audio_data, sample_rate with
  | Value y, Value sr => emit (SoundfileWrite y sr)
  | _, _ => mret tt
  end ;;
  lift (soundfile_write lib audio_data sample_rate).

Definition speaker_colors : gmap string string :=
  list_to_map [ ("SPEAKER_00", "#FF6B6B"); ("SPEAKER_01", "#4ECDC4");
                ("SPEAKER_02", "#45B7D1"); ("SPEAKER_03", "#96CEB4");
                ("SPEAKER_04", "#FFEAA7"); ("SPEAKER_05", "#DDA0DD");
                ("SPEAKER_06", "#FFB347"); ("SPEAKER_07", "#98FB98") ].

(** the card [st.markdown] draws for a segment, by the values that fill
    the holes of its HTML template *)
Definition segment_card (seg : segment) : event :=
  let speaker_color := default "#DDD" (speaker_colors !! seg_speaker seg) in
  StSegmentCard speaker_color (seg_speaker seg)
    (PyFloat.format_f 1 (seg_start seg)) (PyFloat.format_f 1 (seg_end seg))
    (seg_text seg).

Fixpoint display_segments (segments : list segment) : M unit :=
  match segments with
  | [] => mret tt
  | seg :: rest => emit (segment_card seg) ;; display_segments rest
  end.

Definition display_transcription_with_audio (segments : list segment)
    (audio_data : slot (list sample)) (sample_rate : slot Z) : M unit :=
  st_element "subheader" "🎵 Audio Player" ;;
  audio_bytes ← create_audio_bytes audio_data sample_rate ;
  emit (StAudio audio_bytes) ;;
  st_element "subheader" "📝 Transcription" ;;
  display_segments segments.

(** the [if ... not in st.session_state] block *)
Definition init_slot {T : Type} (s : slot T) : slot T :=
  match s with Missing => PyNone | _ => s end.

Definition init_session_state (s : session_state) : session_state :=
  {| processed_segments := init_slot (processed_segments s);
     processed_audio_data := init_slot (processed_audio_data s);
     processed_sample_rate := init_slot (processed_sample_rate s);
     processed_file_name := init_slot (processed_file_name s) |}.

Definition is_not_None {T : Type} (s : slot T) : bool :=
  match s with Value _ => true | _ => false end.

(** the body of [if st.button("Clear Results"):] *)
Definition clear_results : M unit :=
  modify (fun w => with_session
    {| processed_segments := PyNone;
       processed_audio_data := processed_audio_data (session w);
       processed_sample_rate := processed_sample_rate (session w);
       processed_file_name := processed_file_name (session w) |} w) ;;
  modify (fun w => with_session
    {| processed_segments := processed_segments (session w);
       processed_audio_data := PyNone;
       processed_sample_rate := processed_sample_rate (session w);
       processed_file_name := processed_file_name (session w) |} w) ;;
  modify (fun w => with_session
    {| processed_segments := processed_segments (session w);
       processed_audio_data := processed_audio_data (session w);
       processed_sample_rate := PyNone;
       processed_file_name := processed_file_name (session w) |} w) ;;
  modify (fun w => with_session
    {| processed_segments := processed_segments (session w);
       processed_audio_data := processed_audio_data (session w);
       processed_sample_rate := processed_sample_rate (session w);
       processed_file_name := PyNone |} w) ;;
  st_rerun.

(** the four assignments after a successful [process_audio] *)
Definition store_result (r : process_result) (name : string) : M unit :=
  let '(segments, audio_data, sample_rate) := r in
  modify (fun w => with_session
    {| processed_segments := Value segments;
       processed_audio_data := Value audio_data;
       processed_sample_rate := Value sample_rate;
       processed_file_name := Value name |} w).

(** the body of [if process_button:] *)
Definition process_upload (diarization_pipeline : pipeline)
    (transcription_model : whisper_model)
    (name content tmp_path : string) : M unit :=
  modify (fun w => with_files (<[tmp_path := content]> (files w)) w) ;;
  try_finally
    (try_except
       (r ← cache_data (process_audio diarization_pipeline transcription_model) tmp_path ;
        store_result r name)
       (fun _ msg => st_error ("❌ Error processing audio: " ++ msg)))
    (tmp_exists ← gets (fun w => bool_decide (is_Some (files w !! tmp_path))) ;
     when tmp_exists (modify (fun w => with_files (delete tmp_path (files w)) w))).

(** the text behind the download button *)
Definition transcription_text (segments : list segment) : string :=
  PyStr.join PyStr.newline
    (map (fun seg => transcript_line (seg_start seg) (seg_end seg)
                       (seg_speaker seg) (seg_text seg)) segments).

Definition slot_str (s : slot string) : string :=
  match s with Value v => v | _ => "None" end.

(** the block [if st.session_state.processed_segments is not None: ... elif ...] *)
Definition show_results : M unit :=
  s ← gets session ;
  match processed_segments s with
  | Value segments =>
      let audio_data := processed_audio_data s in
      let sample_rate := processed_sample_rate s in
      match segments with
      | _ :: _ =>
          st_success ("🎉 Processing complete! Found " ++ pretty (N.of_nat (length segments))
                      ++ " segments from " ++ pretty (N.of_nat (speaker_count segments))
                      ++ " speakers.") ;;
          display_transcription_with_audio segments audio_data sample_rate ;;
          emit (StDownloadButton "📥 Download Transcription"
                  (transcription_text segments)
                  ("transcription_" ++ slot_str (processed_file_name s) ++ ".txt")
                  "text/plain")
      | [] => st_warning "No segments found in the audio file."
      end
  | _ =>
      st_info "👆 Click the **Process Audio** button above to start diarization and transcription!"
  end.

(** [main], one run of the script *)
Definition main (ui : interaction) : M unit :=
  st_element "set_page_config" "Speaker Diarization & Transcription" ;;
  st_element "title" "🎙️ Speaker Diarization & Transcription" ;;
  st_element "markdown"
    "Upload a WAV audio file to get speaker-diarized transcription with interactive timestamp highlighting!" ;;
  modify (fun w => with_session (init_session_state (session w)) w) ;;
  st_element "header" "⚙️ Settings" ;;
  st_info "Make sure you have set your HF_TOKEN in the .env file" ;;
  models ← try_except
    (models ← cache_resource load_models ;
     st_success "✅ Models loaded successfully!" ;;
     mret models)
    (fun _ msg => st_error ("❌ Error loading models: " ++ msg) ;; st_stop) ;
  let '(diarization_pipeline, transcription_model) := models in
  st_element "file_uploader" "Choose a WAV audio file" ;;
  match uploaded_file ui with
  | Some (name, content) =>
      st_success ("✅ File uploaded: " ++ name) ;;
      st_element "button" "🚀 Process Audio" ;;
      segs ← gets (fun w => processed_segments (session w)) ;
      when (is_not_None segs)
           (st_element "button" "🗑️ Clear Results" ;;
            when (clear_button ui) clear_results) ;;
      when (process_button ui)
           (process_upload diarization_pipeline transcription_model
              name content (tmp_path ui)) ;;
      show_results
  | None =>
      st_info "👆 Please upload a WAV audio file to get started!" ;;
      st_element "markdown" about_markdown
  end.

End Pipeline.


(** ** The batch scripts *)
Section Programs.

Context (lib : Libraries).

Definition INPUT_FOLDER : string := "input".
Definition OUTPUT_FOLDER : string := "output".
Definition audio_input_filename : string := "conversation.wav".
Definition output_filename : string := "diarized-transcription.txt".
Definition diarization_output_filename : string := "diarization.rttm".

(** [print(s)] *)
Definition print (s : string) : M unit := emit (PrintLine s).

(** [open(path, "w")] *)
Definition open_w (path : string) : M unit :=
  modify (fun w => with_files (<[path := ""]> (files w)) w).

(** [f.write(s)] on a file opened at [path] *)
Definition file_write (path s : string) : M unit :=
  modify (fun w => with_files (<[path := default "" (files w !! path) ++ s]> (files w)) w).

(** [if not os.path.exists(d): os.makedirs(d)] *)
Definition ensure_dir (d : string) : M unit :=
  present ← gets (fun w => bool_decide (d ∈ dirs w)) ;
  when (negb present) (modify (fun w => with_dirs ({[ d ]} ∪ dirs w) w)).

(** *** [src/programs/main.py] *)

(** the [for] loop over the turns *)
Fixpoint main_py_segments (transcription_model : whisper_model)
    (y : list sample) (sr : Z) (output_file_path : string)
    (tracks : list track) : M unit :=
  match tracks with
  | [] => mret tt
  | (turn, _, speaker) :: rest =>
      let start_time := start turn in
      let end_time := end_ turn in
      start_sample ← lift (sample_index start_time sr) ;
      end_sample ← lift (sample_index end_time sr) ;
      let segment := PySlice.slice y start_sample end_sample in
      emit (Transcribe segment) ;;
      text ← lift (transcription_model segment) ;
      let output_string :=
        transcript_line start_time end_time speaker (PyStr.strip text)
        ++ PyStr.newline in
      print (PyStr.strip output_string) ;;
      file_write output_file_path output_string ;;
      main_py_segments transcription_model y sr output_file_path rest
  end.

Definition main_py : M unit :=
  ensure_dir (PyStr.path_join (ROOT_FOLDER lib) OUTPUT_FOLDER) ;;
  let device := "cpu" in
  emit (TorchSetNumThreads 4) ;;
  hf_token ← gets (fun w => environ w !! "HF_TOKEN") ;
  let file_path :=
    PyStr.path_join (PyStr.path_join (ROOT_FOLDER lib) INPUT_FOLDER)
      audio_input_filename in
  print "Step 1: Performing Speaker Diarization..." ;;
  emit (PipelineFromPretrained diarization_model_name hf_token) ;;
  diarization_pipeline ← lift (Pipeline_from_pretrained lib diarization_model_name hf_token) ;
  emit (RunPipeline file_path) ;;
  diarization ← lift (diarization_pipeline file_path) ;
  print "Diarization complete." ;;
  print (PyStr.newline ++ "Step 2: Loading Transcription Model...") ;;
  emit (WhisperLoadModel "base" device) ;;
  transcription_model ← lift (whisper_load_model lib "base" device) ;
  print "Transcription model loaded." ;;
  print (PyStr.newline ++ "--- Full Transcription ---") ;;
  emit (LibrosaLoad file_path 16000) ;;
  '(y, sr) ← lift (librosa_load lib file_path 16000) ;
  let output_file_path :=
    PyStr.path_join (PyStr.path_join (ROOT_FOLDER lib) OUTPUT_FOLDER)
      output_filename in
  open_w output_file_path ;;
  main_py_segments transcription_model y sr output_file_path
    (itertracks_yield_label diarization) ;;
  print (PyStr.newline ++ "Transcription saved to " ++ output_file_path).

(** *** [src/programs/diarize.py] *)

Fixpoint diarize_py_turns (tracks : list track) : M unit :=
  match tracks with
  | [] => mret tt
  | (turn, _, speaker) :: rest =>
      print ("[" ++ PyFloat.format_f 2 (start turn) ++ "s --> "
             ++ PyFloat.format_f 2 (end_ turn) ++ "s] Speaker_" ++ speaker) ;;
      diarize_py_turns rest
  end.

Definition diarize_py : M unit :=
  let audio_file_path :=
    PyStr.path_join (PyStr.path_join (ROOT_FOLDER lib) INPUT_FOLDER)
      audio_input_filename in
  let diarization_output_path :=
    PyStr.path_join (PyStr.path_join (ROOT_FOLDER lib) OUTPUT_FOLDER)
      diarization_output_filename in
  hf_token ← gets (fun w => environ w !! "HF_TOKEN") ;
  emit (PipelineFromPretrained diarization_model_name hf_token) ;;
  pipeline ← lift (Pipeline_from_pretrained lib diarization_model_name hf_token) ;
  emit (RunPipeline audio_file_path) ;;
  diarization ← lift (pipeline audio_file_path) ;
  print (PyStr.newline ++ "--- Speaker Diarization ---") ;;
  diarize_py_turns (itertracks_yield_label diarization) ;;
  open_w diarization_output_path ;;
  emit (WriteRttm diarization_output_path).

End Programs.


(** ** A small concrete setting

    Three turns over a waveform of 400 samples, times in 1/128 s (125
    samples at 16 kHz). The second turn is transcribed to blanks. Used to run the scripts on
    concrete inputs. *)
Module Demo.

Definition tick (k : Z) : PyFloat.t := PyFloat.of_scaled k (-7).

Definition diarization : Annotation :=
  [ ({| start := tick 0; end_ := tick 1 |}, "A", "SPEAKER_00");
    ({| start := tick 1; end_ := tick 3 |}, "B", "SPEAKER_01");
    ({| start := tick 3; end_ := tick 4 |}, "C", "SPEAKER_00") ].

Definition waveform : list sample :=
  map (fun n => PyFloat.of_scaled (Z.of_nat n) (-9)) (seq 0 400).

Definition diarization_pipeline : pipeline := fun audio_path =>
  if decide (audio_path = "/tmp/silence.wav") then Returns []
  else if decide (audio_path = "/tmp/broken.wav")
       then Throws "ValueError" "not a WAV file"
       else Returns diarization.

Definition transcription_model : whisper_model := fun samples =>
  let n := Z.of_nat (length samples) in
  if n =? 0 then Throws "RuntimeError" "empty audio"
  else if n =? 125 then Returns " hello "
  else if n =? 250 then Returns "   "
  else Returns " world".

Definition lib : Libraries :=
  {| ROOT_FOLDER := "/srv/learn-transcription";
     Pipeline_from_pretrained := fun _ token =>
       match token with
       | Some _ => Returns diarization_pipeline
       | None => Throws "OSError" "401 Unauthorized"
       end;
     whisper_load_model := fun _ _ => Returns transcription_model;
     librosa_load := fun _ sr => Returns (waveform, sr);
     soundfile_write := fun y sr =>
       match y, sr with
       | Value _, Value _ => Returns "RIFF"
       | _, _ => Throws "TypeError" "no audio data"
       end |}.

Definition fresh_session : session_state :=
  {| processed_segments := Missing; processed_audio_data := Missing;
     processed_sample_rate := Missing; processed_file_name := Missing |}.

Definition world0 : world :=
  {| trace := []; environ := {[ "HF_TOKEN" := "hf_demo" ]}; files := ∅;
     dirs := ∅; session := fresh_session; resource_cache := None;
     data_cache := ∅ |}.

(** the same machine without the token in its environment *)
Definition world_no_token : world :=
  {| trace := []; environ := ∅; files := ∅; dirs := ∅;
     session := fresh_session; resource_cache := None; data_cache := ∅ |}.

Definition upload (name tmp : string) (process clear : bool) : interaction :=
  {| uploaded_file := Some (name, "RIFF....WAVE"); process_button := process;
     clear_button := clear; tmp_path := tmp |}.

(** the records [process_audio] gives for [diarization] *)
Definition segments : list segment :=
  [ {| seg_start := tick 0; seg_end := tick 1;
       seg_speaker := "SPEAKER_00"; seg_text := "hello" |};
    {| seg_start := tick 3; seg_end := tick 4;
       seg_speaker := "SPEAKER_00"; seg_text := "world" |} ].

(** the world after one run of the app that processed an upload *)
Definition world_processed : world :=
  (main lib (upload "talk.wav" "/tmp/a.wav" true false) world0).2.

End Demo.
(** ** Definitions used to state the properties *)

(** a computation that, from any world, has outcome [r] and only appends
    the events [evs] to the trace *)
Definition emits {A : Type} (m : M A) (r : outcome A) (evs : list event) : Prop :=
  forall w, m w = (r, with_trace (trace w ++ evs) w).

(** the samples of the events [Transcribe], in order *)
Definition transcribed (evs : list event) : list (list sample) :=
  omap (fun ev => match ev with Transcribe s => Some s | _ => None end) evs.

(** the per-segment progress updates *)
Definition progress_updates (evs : list event) : list (Z * Z) :=
  omap (fun ev => match ev with StProgress n d => Some (n, d) | _ => None end) evs.

(** [y[int(start * sr) : int(end * sr)]] for a turn, or what [int] raises *)
Definition turn_samples (y : list sample) (sr : Z) (tr : track) : external (list sample) :=
  match sample_index (start tr.1.1) sr with
  | Returns a =>
      match sample_index (end_ tr.1.1) sr with
      | Returns b => Returns (PySlice.slice y a b)
      | Throws cls msg => Throws cls msg
      end
  | Throws cls msg => Throws cls msg
  end.

(** the stripped text the model gives for a turn *)
Definition turn_text (tm : whisper_model) (y : list sample) (sr : Z) (tr : track) : external string :=
  match turn_samples y sr tr with
  | Returns s =>
      match tm s with
      | Returns text => Returns (PyStr.strip text)
      | Throws cls msg => Throws cls msg
      end
  | Throws cls msg => Throws cls msg
  end.

(** the record of a turn with text [text] *)
Definition record (tr : track) (text : string) : segment :=
  {| seg_start := start tr.1.1; seg_end := end_ tr.1.1;
     seg_speaker := tr.2; seg_text := text |}.

(** the record a turn contributes, if its text is not empty *)
Definition record_of (tm : whisper_model) (y : list sample) (sr : Z) (tr : track) : option segment :=
  match turn_text tm y sr tr with
  | Returns text => if PyStr.truthy text then Some (record tr text) else None
  | Throws _ _ => None
  end.

Definition answered (tm : whisper_model) (y : list sample) (sr : Z) (tr : track) : Prop :=
  exists text, turn_text tm y sr tr = Returns text.

(** a computation that, besides emitting [evs], appends [text] to the
    file at [path] *)
Definition writes {A : Type} (path : string) (m : M A) (r : outcome A)
    (evs : list event) (text : string) : Prop :=
  forall w c, files w !! path = Some c ->
    m w = (r, with_files (<[path := c ++ text]> (files w))
                (with_trace (trace w ++ evs) w)).

Fixpoint concat_strings (l : list string) : string :=
  match l with
  | [] => ""
  | x :: rest => x ++ concat_strings rest
  end.

(** the line [main.py] writes for a turn with stripped text [text] *)
Definition written_line (tr : track) (text : string) : string :=
  transcript_line (start tr.1.1) (end_ tr.1.1) tr.2 text ++ PyStr.newline.

(** the cache of [process_audio] holds only what [process_audio] returns
    with these models *)
Definition cache_sound (lib : Libraries) (dp : pipeline) (tm : whisper_model)
    (w : world) : Prop :=
  forall p r, data_cache w !! p = Some r ->
    exists evs, emits (process_audio lib dp tm p) (Return r) evs.

(** the events a run from [w] to [w'] added *)
Definition added (w w' : world) : list event := drop (length (trace w)) (trace w').

Definition main_py_file_path (lib : Libraries) : string :=
  PyStr.path_join (PyStr.path_join (ROOT_FOLDER lib) INPUT_FOLDER) audio_input_filename.

Definition main_py_output_path (lib : Libraries) : string :=
  PyStr.path_join (PyStr.path_join (ROOT_FOLDER lib) OUTPUT_FOLDER) output_filename.

(** [s] is [y[int(start * sr) : int(end * sr)]] for the turn [tr] *)
Definition is_slice_of (y : list sample) (sr : Z) (tr : track) (s : list sample) : Prop :=
  exists a b,
    sample_index (start tr.1.1) sr = Returns a /\
    sample_index (end_ tr.1.1) sr = Returns b /\
    s = PySlice.slice y a b.

(** the slices handed to the model are those of the turns reached, in
    order: all the turns when the run returns *)
Definition slices_match {A : Type} (y : list sample) (sr : Z) (tracks : list track)
    (r : outcome A) (evs : list event) : Prop :=
  exists k,
    (k <= length tracks)%nat /\
    match r with Return _ => k = length tracks | Raise _ => True end /\
    Forall2 (is_slice_of y sr) (take k tracks) (transcribed evs).

(** The line format as the specification words it:
    [start --> end] speaker: text *)
Definition spec_transcript_line (start_s end_s speaker text : string) : string :=
  "[" ++ start_s ++ " --> " ++ end_s ++ "] " ++ speaker ++ ": " ++ text.

(** a time as the scripts print it: two decimals and the unit *)
Definition seconds_2f (t : PyFloat.t) : string := PyFloat.format_f 2 t ++ "s".

(** every sample rate the app holds, in its cache or in the session, is
    16000 *)
Definition rate_ok (w : world) : Prop :=
  (forall p r, data_cache w !! p = Some r -> r.2 = 16000) /\
  (forall sr, processed_sample_rate (session w) = Value sr -> sr = 16000).

(** [m] keeps the invariant [I], and what it returns satisfies [Q] *)
Definition keeps {A : Type} (I : world -> Prop) (m : M A) (Q : A -> Prop) : Prop :=
  forall w, I w ->
    I (m w).2 /\ match (m w).1 with Return a => Q a | Raise _ => True end.

Definition cleared_session : session_state :=
  {| processed_segments := PyNone; processed_audio_data := PyNone;
     processed_sample_rate := PyNone; processed_file_name := PyNone |}.

(** a new server process and a new browser session *)
Definition fresh_world (w : world) : Prop :=
  session w = {| processed_segments := Missing; processed_audio_data := Missing;
                 processed_sample_rate := Missing; processed_file_name := Missing |} /\
  data_cache w = ∅ /\
  resource_cache w = None.

(** the worlds the app can be in: after any number of runs of [main],
    each with whatever the browser sends *)
Inductive reachable (lib : Libraries) : world -> Prop :=
  | reachable_fresh w : fresh_world w -> reachable lib w
  | reachable_run w ui : reachable lib w -> reachable lib (main lib ui w).2.

(** the elements with which [main] renders stored results *)
Definition renders_results (ev : event) : bool :=
  match ev with
  | StAudio _ | StSegmentCard _ _ _ _ _ | StDownloadButton _ _ _ _
  | SoundfileWrite _ _ => true
  | _ => false
  end.

(** the events of [process_audio] when the diarization has no turn *)
Definition no_turn_events (p : string) : list event :=
  [ StSpinner "Performing speaker diarization..."; RunPipeline p;
    StSpinner "Loading audio for transcription..."; LibrosaLoad p 16000;
    StProgressBar 0; StSpinner "Transcribing segments..."; StProgressEmpty ].

(** the events of [main] up to the file uploader, with the models cached *)
Definition main_head_events : list event :=
  [ StElement "set_page_config" "Speaker Diarization & Transcription";
    StElement "title" "🎙️ Speaker Diarization & Transcription";
    StElement "markdown"
      "Upload a WAV audio file to get speaker-diarized transcription with interactive timestamp highlighting!";
    StElement "header" "⚙️ Settings";
    StInfo "Make sure you have set your HF_TOKEN in the .env file";
    StSuccess "✅ Models loaded successfully!";
    StElement "file_uploader" "Choose a WAV audio file" ].

Definition main_head_world (w : world) : world :=
  with_trace (trace w ++ main_head_events)
    (with_session (init_session_state (session w)) w).

(** what is left of [main] after the file uploader *)
Definition main_tail (lib : Libraries) (ui : interaction)
    (diarization_pipeline : pipeline) (transcription_model : whisper_model) : M unit :=
  match uploaded_file ui with
  | Some (name, content) =>
      st_success ("✅ File uploaded: " ++ name) ;;
      st_element "button" "🚀 Process Audio" ;;
      segs ← gets (fun w => processed_segments (session w)) ;
      when (is_not_None segs)
           (st_element "button" "🗑️ Clear Results" ;;
            when (clear_button ui) clear_results) ;;
      when (process_button ui)
           (process_upload lib diarization_pipeline transcription_model
              name content (tmp_path ui)) ;;
      show_results lib
  | None =>
      st_info "👆 Please upload a WAV audio file to get started!" ;;
      st_element "markdown" about_markdown
  end.


(** ** Concrete settings in which a library call fails *)
Module DemoFailures.

(** a diarization whose second turn lies after the end of the waveform:
    its slice is empty and the demo model refuses it *)
Definition late_diarization : Annotation :=
  [ ({| start := Demo.tick 0; end_ := Demo.tick 1 |}, "A", "SPEAKER_00");
    ({| start := Demo.tick 5; end_ := Demo.tick 6 |}, "B", "SPEAKER_01");
    ({| start := Demo.tick 3; end_ := Demo.tick 4 |}, "C", "SPEAKER_00") ].

Definition late_pipeline : pipeline := fun _ => Returns late_diarization.

(** the model hub cannot be reached *)
Definition lib_no_hub : Libraries :=
  {| ROOT_FOLDER := ROOT_FOLDER Demo.lib;
     Pipeline_from_pretrained := fun _ _ => Throws "OSError" "hub unreachable";
     whisper_load_model := whisper_load_model Demo.lib;
     librosa_load := librosa_load Demo.lib;
     soundfile_write := soundfile_write Demo.lib |}.


(** the audio cannot be encoded for the player *)
Definition lib_no_encoder : Libraries :=
  {| ROOT_FOLDER := ROOT_FOLDER Demo.lib;
     Pipeline_from_pretrained := Pipeline_from_pretrained Demo.lib;
     whisper_load_model := whisper_load_model Demo.lib;
     librosa_load := librosa_load Demo.lib;
     soundfile_write := fun _ _ => Throws "RuntimeError" "cannot encode" |}.

(** the audio file is not one the pipeline can read *)
Definition bad_audio_pipeline : pipeline := fun _ => Throws "ValueError" "not a WAV file".

Definition lib_bad_audio : Libraries :=
  {| ROOT_FOLDER := ROOT_FOLDER Demo.lib;
     Pipeline_from_pretrained := fun _ _ => Returns bad_audio_pipeline;
     whisper_load_model := whisper_load_model Demo.lib;
     librosa_load := librosa_load Demo.lib;
     soundfile_write := soundfile_write Demo.lib |}.


(** a new session on a server whose models are loaded *)
Definition world_loaded : world :=
  with_resource_cache
    (Some (Demo.diarization_pipeline, Demo.transcription_model)) Demo.world0.

End DemoFailures.

(** ** [src/app/transcribe.py]

    The script transcribes the whole file in one call and keeps the full
    result. What Whisper does with a path, which keys the result has
    besides the two the script reads, and how [json.dump] writes it are
    the library's: they are the fields of [Transcriber]. *)

(** one item of [result["segments"]], by the three keys the script reads *)
Record whisper_segment : Type := {
  ws_start : PyFloat.t;
  ws_end : PyFloat.t;
  ws_text : string
}.

Record Transcriber : Type := {
  (* the dict [model.transcribe] returns *)
  whisper_result : Type;
  (* [model.transcribe(audio_file_path)] *)
  transcribe_path : string -> external whisper_result;
  (* [result["text"]] *)
  result_text : whisper_result -> string;
  (* [result["segments"]] *)
  result_segments : whisper_result -> list whisper_segment;
  (* the text [json.dump(result, f, indent=4)] writes *)
  json_dump : whisper_result -> string
}.

Section TranscribeScript.

Context (lib : Libraries) (tr : Transcriber).

Definition transcription_output_filename : string := "transcription.json".

Definition transcribe_py_audio_path : string :=
  PyStr.path_join (PyStr.path_join (ROOT_FOLDER lib) INPUT_FOLDER) audio_input_filename.

Definition transcribe_py_output_path : string :=
  PyStr.path_join (PyStr.path_join (ROOT_FOLDER lib) OUTPUT_FOLDER)
    transcription_output_filename.

(** [f"[{start:.2f}s --> {end:.2f}s] {text.strip()}"] *)
Definition transcribe_py_line (seg : whisper_segment) : string :=
  "[" ++ PyFloat.format_f 2 (ws_start seg) ++ "s --> "
  ++ PyFloat.format_f 2 (ws_end seg) ++ "s] " ++ PyStr.strip (ws_text seg).

Fixpoint transcribe_py_segments (segs : list whisper_segment) : M unit :=
  match segs with
  | [] => mret tt
  | segment :: rest =>
      print (transcribe_py_line segment) ;;
      transcribe_py_segments rest
  end.

Definition transcribe_py : M unit :=
  let audio_file_path := transcribe_py_audio_path in
  let transcription_output_path := transcribe_py_output_path in
  let device := "cpu" in
  ensure_dir (PyStr.path_join (ROOT_FOLDER lib) OUTPUT_FOLDER) ;;
  print "Loading Whisper model (base)..." ;;
  emit (WhisperLoadModel "base" device) ;;
  model ← lift (whisper_load_model lib "base" device) ;
  print "Model loaded." ;;
  print (PyStr.newline ++ "Transcribing " ++ audio_file_path ++ "...") ;;
  result ← lift (transcribe_path tr audio_file_path) ;
  print "Transcription complete." ;;
  print (PyStr.newline ++ "--- Full Transcription Text ---") ;;
  print (result_text tr result) ;;
  print (PyStr.newline ++ "--- Transcription with Timestamps (No Speaker Labels) ---") ;;
  transcribe_py_segments (result_segments tr result) ;;
  open_w transcription_output_path ;;
  file_write transcription_output_path (json_dump tr result).

End TranscribeScript.

(** the events of [main] before the models are asked for *)
Definition main_intro_events : list event :=
  [ StElement "set_page_config" "Speaker Diarization & Transcription";
    StElement "title" "🎙️ Speaker Diarization & Transcription";
    StElement "markdown"
      "Upload a WAV audio file to get speaker-diarized transcription with interactive timestamp highlighting!";
    StElement "header" "⚙️ Settings";
    StInfo "Make sure you have set your HF_TOKEN in the .env file" ].


Definition diarize_py_audio_path (lib : Libraries) : string :=
  PyStr.path_join (PyStr.path_join (ROOT_FOLDER lib) INPUT_FOLDER) audio_input_filename.



(** the records of a result all have a text *)
Definition texts_not_empty (segs : list segment) : Prop :=
  Forall (fun seg => PyStr.truthy (seg_text seg) = true) segs.

(** the records in the cache and in the session all have a text *)
Definition no_empty_text (w : world) : Prop :=
  (forall p r, data_cache w !! p = Some r -> texts_not_empty r.1.1) /\
  (forall segs, processed_segments (session w) = Value segs -> texts_not_empty segs).

(** a transcriber for the demo: two segments, the second padded with
    blanks *)
Module DemoTranscriber.

Definition result : Type := string * list whisper_segment.

Definition demo_result : result :=
  (" hello world",
   [ {| ws_start := Demo.tick 0; ws_end := Demo.tick 1; ws_text := " hello" |};
     {| ws_start := Demo.tick 1; ws_end := Demo.tick 4; ws_text := " world  " |} ]).

Definition tr : Transcriber :=
  {| whisper_result := result;
     transcribe_path := fun _ => Returns demo_result;
     result_text := fst;
     result_segments := snd;
     json_dump := fun r => "{ text: " ++ fst r ++ " }" |}.

Definition tr_failing : Transcriber :=
  {| whisper_result := result;
     transcribe_path := fun _ => Throws "RuntimeError" "ffmpeg not found";
     result_text := fst;
     result_segments := snd;
     json_dump := fun r => "{ text: " ++ fst r ++ " }" |}.

End DemoTranscriber.

(** a time that is not negative: a zero or a positive finite float *)
Definition nonneg_time (t : PyFloat.t) : Prop :=
  match t with
  | S754_zero _ | S754_finite false _ _ => True
  | _ => False
  end.


(** * Properties *)

(** ** The primitives on concrete inputs *)
Module PrimitiveExamples.
Import PyStr PyFloat PySlice.

Example strip_ex : strip "  hi there  " = "hi there".
Proof. reflexivity. Qed.

Example strip_blank : strip "   " = "".
Proof. reflexivity. Qed.

(** U+00A0 and U+3000 are white space, the bytes of U+00E9 are not *)
Example strip_unicode :
  strip (String (byte 194) (String (byte 160) (String (byte 227) (String (byte 128)
          (String (byte 128) (String (byte 195) (String (byte 169) " ")))))))
  = String (byte 195) (String (byte 169) "").
Proof. reflexivity. Qed.

Example join_ex : join ", " ["a"; "b"; "c"] = "a, b, c".
Proof. reflexivity. Qed.

Example path_join_ex : path_join "/srv/app" "output" = "/srv/app/output".
Proof. reflexivity. Qed.

(** 1.5 * 16000 = 24000 *)
Example mul_ex : trunc (mul (of_scaled 3 (-1)) (of_scaled 16000 0)) = Some 24000.
Proof. vm_compute. reflexivity. Qed.

(** 0.125 is a tie at two decimals and goes to the even digit; the
    binary64 number nearest to 1.005 is below the tie *)
Example format_tie : format_f 2 (of_scaled 1 (-3)) = "0.12".
Proof. vm_compute. reflexivity. Qed.

Example format_1005 : format_f 2 (of_scaled 4526117625507348 (-52)) = "1.00".
Proof. vm_compute. reflexivity. Qed.

Example format_neg : format_f 2 (of_scaled (-25) (-1)) = "-12.50".
Proof. vm_compute. reflexivity. Qed.

Example format_one_digit : format_f 1 (of_scaled 7 (-2)) = "1.8".
Proof. vm_compute. reflexivity. Qed.

Example slice_ex : slice [10; 20; 30; 40; 50] 1 3 = [20; 30].
Proof. reflexivity. Qed.

Example slice_clamped : slice [10; 20; 30] 2 99 = [30].
Proof. reflexivity. Qed.

Example slice_negative : slice [10; 20; 30; 40] (-3) (-1) = [20; 30].
Proof. reflexivity. Qed.

Example slice_empty : slice [10; 20; 30] 2 1 = [].
Proof. reflexivity. Qed.

End PrimitiveExamples.

(** The fuel of [lstrip] is enough: what it returns starts with no
    white-space character. *)
Lemma space_prefix_shorter s r :
  PyStr.space_prefix s = Some r -> (String.length r < String.length s)%nat.
Proof.
  unfold PyStr.space_prefix.
  destruct s as [|c1 [|c2 [|c3 r3]]]; try done.
  - destruct (_ || _); [intros [= <-]; cbn; lia|done].
  - destruct (_ || _); [intros [= <-]; cbn; lia|].
    destruct (_ && _); [intros [= <-]; cbn; lia|done].
  - destruct (PyStr.byte_in c1 9 13 || PyStr.byte_in c1 28 32);
      [intros [= <-]; cbn; lia|].
    destruct (PyStr.byte_in c1 194 194 && _); [intros [= <-]; cbn; lia|].
    destruct (_ || _); [intros [= <-]; cbn; lia|done].
Qed.

Lemma lstrip_fuel_done fuel s :
  (String.length s <= fuel)%nat ->
  PyStr.space_prefix (PyStr.lstrip_fuel fuel s) = None.
Proof.
  revert s. induction fuel as [|fuel IH]; intros s Hlen.
  - destruct s; [done|cbn in Hlen; lia].
  - cbn [PyStr.lstrip_fuel].
    destruct (PyStr.space_prefix s) as [r|] eqn:E; [|done].
    apply IH. apply space_prefix_shorter in E. lia.
Qed.

Lemma lstrip_done s : PyStr.space_prefix (PyStr.lstrip s) = None.
Proof. by apply lstrip_fuel_done. Qed.

(** ** The monad *)

Lemma bind_run {A B : Type} (m : M A) (f : A -> M B) (w : world) :
  (m ≫= f) w = match m w with
               | (Return a, w') => f a w'
               | (Raise e, w') => (Raise e, w')
               end.
Proof. reflexivity. Qed.

Lemma with_trace_same (w : world) : with_trace (trace w) w = w.
Proof. by destruct w. Qed.

Lemma with_trace_twice (t1 t2 : list event) (w : world) :
  with_trace t2 (with_trace t1 w) = with_trace t2 w.
Proof. reflexivity. Qed.

Lemma emits_ret {A : Type} (a : A) : emits (mret a) (Return a) [].
Proof. intros w. rewrite app_nil_r, with_trace_same. reflexivity. Qed.

Lemma emits_raise {A : Type} (e : exn) : emits (@raise A e) (Raise e) [].
Proof. intros w. rewrite app_nil_r, with_trace_same. reflexivity. Qed.

Lemma emits_emit (ev : event) : emits (emit ev) (Return tt) [ev].
Proof. intros w. reflexivity. Qed.

Lemma emits_lift_returns {A : Type} (x : external A) (a : A) :
  x = Returns a -> emits (lift x) (Return a) [].
Proof. intros ->. apply emits_ret. Qed.

Lemma emits_lift_throws {A : Type} (x : external A) (cls msg : string) :
  x = Throws cls msg -> emits (lift x) (Raise (Exception cls msg)) [].
Proof. intros ->. apply emits_raise. Qed.

Lemma emits_bind {A B : Type} (m : M A) (f : A -> M B) a e1 r e2 :
  emits m (Return a) e1 -> emits (f a) r e2 -> emits (m ≫= f) r (e1 ++ e2).
Proof.
  intros Hm Hf w. rewrite bind_run, Hm, Hf. cbn. by rewrite app_assoc.
Qed.

Lemma emits_bind_raise {A B : Type} (m : M A) (f : A -> M B) e e1 :
  emits m (Raise e) e1 -> emits (m ≫= f) (Raise e) e1.
Proof. intros Hm w. by rewrite bind_run, Hm. Qed.

Lemma emits_functional {A : Type} (m : M A) r1 e1 r2 e2 :
  emits m r1 e1 -> emits m r2 e2 -> r1 = r2 /\ e1 = e2.
Proof.
  intros H1 H2. pose proof (H1 Demo.world0) as E1. rewrite (H2 Demo.world0) in E1.
  inversion E1 as [[Hr He]]. split; [done|]. by simplify_list_eq.
Qed.

Lemma emits_bind_ret_l {A B : Type} (a : A) (f : A -> M B) r evs :
  emits (f a) r evs -> emits (mret a ≫= f) r evs.
Proof. intros H w. rewrite bind_run. apply H. Qed.

Lemma emits_bind_emit {B : Type} (ev : event) (f : unit -> M B) r evs :
  emits (f tt) r evs -> emits (emit ev ≫= f) r (ev :: evs).
Proof.
  intros H w. rewrite bind_run. cbn. rewrite H. cbn.
  by rewrite <- app_assoc.
Qed.

Lemma emits_bind_raise_l {A B : Type} (e : exn) (f : A -> M B) :
  emits (raise e ≫= f) (Raise e) [].
Proof. apply emits_bind_raise, emits_raise. Qed.

Lemma progress_fraction_emits (num den : Z) :
  0 < num -> num <= den ->
  emits (progress_fraction num den) (Return tt) [StProgress num den].
Proof.
  intros Hn Hd. unfold progress_fraction.
  destruct (den =? 0) eqn:E0; [lia|].
  replace ((0 <=? num * Z.sgn den) && (Z.abs num <=? Z.abs den)) with true.
  - apply emits_emit.
  - symmetry. apply andb_true_iff. split; apply Z.leb_le; [|lia].
    rewrite Z.sgn_pos by lia. lia.
Qed.

Lemma turn_text_samples tm y sr tr text :
  turn_text tm y sr tr = Returns text ->
  exists s raw, turn_samples y sr tr = Returns s /\ tm s = Returns raw
                /\ text = PyStr.strip raw.
Proof.
  unfold turn_text. destruct (turn_samples y sr tr) as [s|]; [|done].
  destruct (tm s) as [raw|] eqn:E; [|done]. intros [= <-]. eauto.
Qed.

(** What the loop of [process_audio] does from index [i] with the records
    [acc] collected so far. *)
Lemma transcribe_segments_run tm y sr total tracks :
  forall i acc, 0 <= i -> i + Z.of_nat (length tracks) <= total ->
  exists r evs,
    emits (transcribe_segments tm y sr total i tracks acc) r evs /\
    match r with
    | Return segs =>
        Forall (answered tm y sr) tracks /\
        segs = (acc ++ omap (record_of tm y sr) tracks)%list /\
        Forall2 (fun tr s => turn_samples y sr tr = Returns s) tracks (transcribed evs) /\
        progress_updates evs =
          map (fun j => (i + 1 + Z.of_nat j, total)) (seq 0 (length tracks))
    | Raise e =>
        exists j tr cls msg,
          tracks !! j = Some tr /\ Forall (answered tm y sr) (take j tracks) /\
          turn_text tm y sr tr = Throws cls msg /\ e = Exception cls msg /\
          exists k, (j <= k <= S j)%nat /\
            Forall2 (fun tr s => turn_samples y sr tr = Returns s)
              (take k tracks) (transcribed evs)
    end.
Proof.
  induction tracks as [|[[turn name] speaker] rest IH]; intros i acc Hi Htot.
  - exists (Return acc), []. split; [apply emits_ret|].
    cbn. rewrite app_nil_r. repeat split; constructor.
  - cbn [transcribe_segments].
    set (tr := (turn, name, speaker)).
    destruct (sample_index (start turn) sr) as [a|cls msg] eqn:Ha.
    2:{ exists (Raise (Exception cls msg)), []. split; [apply emits_bind_raise_l|].
        exists 0%nat, tr, cls, msg. repeat split; try done.
        - unfold turn_text, turn_samples. cbn. by rewrite Ha.
        - exists 0%nat. split; [lia|]. constructor. }
    destruct (sample_index (end_ turn) sr) as [b|cls msg] eqn:Hb.
    2:{ exists (Raise (Exception cls msg)), []. split.
        { apply emits_bind_ret_l. apply emits_bind_raise_l. }
        exists 0%nat, tr, cls, msg. repeat split; try done.
        - unfold turn_text, turn_samples. cbn. by rewrite Ha, Hb.
        - exists 0%nat. split; [lia|]. constructor. }
    assert (Hsamples : turn_samples y sr tr = Returns (PySlice.slice y a b)).
    { unfold turn_samples. cbn. by rewrite Ha, Hb. }
    destruct (tm (PySlice.slice y a b)) as [text|cls msg] eqn:Htm.
    2:{ exists (Raise (Exception cls msg)), [Transcribe (PySlice.slice y a b)]. split.
        { apply emits_bind_ret_l, emits_bind_ret_l, emits_bind_emit.
          rewrite Htm. apply emits_bind_raise_l. }
        exists 0%nat, tr, cls, msg. repeat split; try done.
        - unfold turn_text. by rewrite Hsamples, Htm.
        - exists 1%nat. split; [lia|]. cbn. rewrite take_0. by repeat constructor. }
    assert (Htext : turn_text tm y sr tr = Returns (PyStr.strip text)).
    { unfold turn_text. by rewrite Hsamples, Htm. }
    cbn [length] in Htot.
    set (acc' := if PyStr.truthy (PyStr.strip text)
                 then (acc ++ [ {| seg_start := start turn; seg_end := end_ turn;
                                   seg_speaker := speaker;
                                   seg_text := PyStr.strip text |} ])%list
                 else acc).
    destruct (IH (i + 1) acc') as (r & evs & Hrun & Hr); [lia|lia|].
    exists r, (Transcribe (PySlice.slice y a b) :: StProgress (i + 1) total :: evs).
    split.
    { apply emits_bind_ret_l, emits_bind_ret_l, emits_bind_emit.
      rewrite Htm. apply emits_bind_ret_l.
      apply (emits_bind _ _ tt [StProgress (i + 1) total]); [|exact Hrun].
      apply progress_fraction_emits; lia. }
    destruct r as [segs|e].
    + destruct Hr as (Hall & Hsegs & Hsl & Hprog). repeat split.
      * constructor; [by eexists|done].
      * rewrite Hsegs. cbn [omap list_omap]. unfold record_of at 2. rewrite Htext.
        subst acc'. destruct (PyStr.truthy (PyStr.strip text)); [|done].
        by rewrite <- app_assoc.
      * cbn. by constructor.
      * change (progress_updates (Transcribe (PySlice.slice y a b)
                  :: StProgress (i + 1) total :: evs))
          with ((i + 1, total) :: progress_updates evs).
        rewrite Hprog. cbn [length seq map]. f_equal; [f_equal; lia|].
        rewrite <- seq_shift, map_map. apply map_ext. intros j. f_equal. lia.
    + destruct Hr as (j & tr' & cls & msg & Hj & Hans & Hthrow & -> & k & Hk & Hsl).
      exists (S j), tr', cls, msg. repeat split; try done.
      * cbn. constructor; [by eexists|done].
      * exists (S k). split; [lia|]. cbn. by constructor.
Qed.

(** What [process_audio] does, by what the pipeline and the loader give. *)
Lemma process_audio_run lib dp tm p :
  exists r evs,
    emits (process_audio lib dp tm p) r evs /\
    match dp p with
    | Throws cls msg => r = Raise (Exception cls msg) /\ transcribed evs = []
    | Returns tracks =>
        match librosa_load lib p 16000 with
        | Throws cls msg => r = Raise (Exception cls msg) /\ transcribed evs = []
        | Returns (y, sr) =>
            match r with
            | Return (segs, y', sr') =>
                y' = y /\ sr' = sr /\
                Forall (answered tm y sr) tracks /\
                segs = omap (record_of tm y sr) tracks /\
                Forall2 (fun tr s => turn_samples y sr tr = Returns s)
                  tracks (transcribed evs) /\
                progress_updates evs =
                  map (fun j => (1 + Z.of_nat j, Z.of_nat (length tracks)))
                      (seq 0 (length tracks))
            | Raise e =>
                exists j tr cls msg,
                  tracks !! j = Some tr /\
                  Forall (answered tm y sr) (take j tracks) /\
                  turn_text tm y sr tr = Throws cls msg /\ e = Exception cls msg /\
                  exists k, (j <= k <= S j)%nat /\
                    Forall2 (fun tr s => turn_samples y sr tr = Returns s)
                      (take k tracks) (transcribed evs)
            end
        end
    end.
Proof.
  unfold process_audio, st_spinner.
  destruct (dp p) as [tracks|cls msg] eqn:Hdp.
  2:{ eexists _, _. split; [|split; [reflexivity|]].
      - apply emits_bind_emit, emits_bind_emit. apply emits_bind_raise_l.
      - reflexivity. }
  destruct (librosa_load lib p 16000) as [[y sr]|cls msg] eqn:Hload.
  2:{ eexists _, _. split; [|split; [reflexivity|]].
      - apply emits_bind_emit, emits_bind_emit, emits_bind_ret_l.
        apply emits_bind_emit, emits_bind_emit. apply emits_bind_raise_l.
      - reflexivity. }
  destruct (transcribe_segments_run tm y sr (Z.of_nat (length tracks)) tracks 0 [])
    as (r & evs & Hrun & Hr); [lia|lia|].
  destruct r as [segs|e].
  - destruct Hr as (Hall & Hsegs & Hsl & Hprog).
    exists (Return (segs, y, sr)). eexists. split.
    { apply emits_bind_emit, emits_bind_emit, emits_bind_ret_l.
      apply emits_bind_emit, emits_bind_emit, emits_bind_ret_l.
      cbn beta iota zeta. unfold itertracks, itertracks_yield_label.
      rewrite length_map.
      apply emits_bind_emit, emits_bind_emit.
      eapply emits_bind; [exact Hrun|].
      apply emits_bind_emit, emits_ret. }
    repeat split; try done.
    + unfold transcribed in *. cbn. rewrite omap_app. cbn. by rewrite app_nil_r.
    + unfold progress_updates in *. cbn. rewrite omap_app. cbn. rewrite app_nil_r.
      rewrite Hprog. apply map_ext. intros j. f_equal.
  - exists (Raise e). eexists. split.
    { apply emits_bind_emit, emits_bind_emit, emits_bind_ret_l.
      apply emits_bind_emit, emits_bind_emit, emits_bind_ret_l.
      cbn beta iota zeta. unfold itertracks, itertracks_yield_label.
      rewrite length_map.
      apply emits_bind_emit, emits_bind_emit.
      apply emits_bind_raise. exact Hrun. }
    exact Hr.
Qed.

Lemma emits_result {A : Type} (m : M A) r evs w r' w' :
  emits m r evs -> m w = (r', w') -> r' = r /\ w' = with_trace (trace w ++ evs) w.
Proof. intros H E. rewrite H in E. by inversion E. Qed.

Lemma string_app_nil_r (s : string) : s ++ "" = s.
Proof.
  induction s as [|c s IH]; [done|].
  change (String c (s ++ "") = String c s). by rewrite IH.
Qed.

Lemma string_app_assoc (a b c : string) : (a ++ b) ++ c = a ++ (b ++ c).
Proof.
  induction a as [|x a IH]; [done|].
  change (String x ((a ++ b) ++ c) = String x (a ++ (b ++ c))). by rewrite IH.
Qed.

Lemma concat_strings_app (l1 l2 : list string) :
  concat_strings (l1 ++ l2) = concat_strings l1 ++ concat_strings l2.
Proof.
  induction l1 as [|x l1 IH]; [done|].
  cbn [app concat_strings]. by rewrite IH, string_app_assoc.
Qed.

Lemma writes_ret {A : Type} path (a : A) : writes path (mret a) (Return a) [] "".
Proof.
  intros w c Hc. rewrite string_app_nil_r, app_nil_r, with_trace_same.
  rewrite insert_id by done. by destruct w.
Qed.

Lemma writes_bind_ret_l {A B : Type} path (a : A) (f : A -> M B) r evs text :
  writes path (f a) r evs text -> writes path (mret a ≫= f) r evs text.
Proof. intros H w c Hc. rewrite bind_run. by apply H. Qed.

Lemma writes_bind_emit {B : Type} path (ev : event) (f : unit -> M B) r evs text :
  writes path (f tt) r evs text -> writes path (emit ev ≫= f) r (ev :: evs) text.
Proof.
  intros H w c Hc. rewrite bind_run. cbn.
  rewrite (H _ c) by done. cbn. by rewrite <- app_assoc.
Qed.

Lemma writes_bind_raise_l {A B : Type} path (e : exn) (f : A -> M B) :
  writes path (raise e ≫= f) (Raise e) [] "".
Proof.
  intros w c Hc. rewrite bind_run. cbn.
  rewrite string_app_nil_r, app_nil_r, insert_id by done. by destruct w.
Qed.

Lemma writes_bind_file_write {B : Type} path s (f : unit -> M B) r evs text :
  writes path (f tt) r evs text ->
  writes path (file_write path s ≫= f) r evs (s ++ text).
Proof.
  intros H w c Hc. rewrite bind_run. cbn.
  rewrite (H _ (c ++ s)).
  - cbn. rewrite Hc. cbn. rewrite insert_insert_eq. by rewrite string_app_assoc.
  - cbn. rewrite Hc. cbn. apply lookup_insert_eq.
Qed.

(** What the loop of [main.py] does: one line per turn, for every turn. *)
Lemma main_py_segments_run tm y sr path tracks :
  exists r evs lines,
    writes path (main_py_segments tm y sr path tracks) r evs (concat_strings lines) /\
    match r with
    | Return _ =>
        Forall2 (fun tr ln => exists text,
                   turn_text tm y sr tr = Returns text /\ ln = written_line tr text)
          tracks lines /\
        Forall2 (fun tr s => turn_samples y sr tr = Returns s) tracks (transcribed evs)
    | Raise e =>
        exists j tr cls msg,
          tracks !! j = Some tr /\
          turn_text tm y sr tr = Throws cls msg /\ e = Exception cls msg /\
          Forall2 (fun tr ln => exists text,
                     turn_text tm y sr tr = Returns text /\ ln = written_line tr text)
            (take j tracks) lines /\
          exists k, (j <= k <= S j)%nat /\
            Forall2 (fun tr s => turn_samples y sr tr = Returns s)
              (take k tracks) (transcribed evs)
    end.
Proof.
  induction tracks as [|[[turn name] speaker] rest IH].
  - exists (Return tt), [], []. split; [apply writes_ret|]. split; constructor.
  - cbn [main_py_segments]. set (tr := (turn, name, speaker)).
    destruct (sample_index (start turn) sr) as [a|cls msg] eqn:Ha.
    2:{ exists (Raise (Exception cls msg)), [], []. split; [apply writes_bind_raise_l|].
        exists 0%nat, tr, cls, msg. repeat split; try done.
        - unfold turn_text, turn_samples. cbn. by rewrite Ha.
        - exists 0%nat. split; [lia|]. constructor. }
    destruct (sample_index (end_ turn) sr) as [b|cls msg] eqn:Hb.
    2:{ exists (Raise (Exception cls msg)), [], []. split.
        { apply writes_bind_ret_l, writes_bind_raise_l. }
        exists 0%nat, tr, cls, msg. repeat split; try done.
        - unfold turn_text, turn_samples. cbn. by rewrite Ha, Hb.
        - exists 0%nat. split; [lia|]. constructor. }
    assert (Hsamples : turn_samples y sr tr = Returns (PySlice.slice y a b)).
    { unfold turn_samples. cbn. by rewrite Ha, Hb. }
    destruct (tm (PySlice.slice y a b)) as [text|cls msg] eqn:Htm.
    2:{ exists (Raise (Exception cls msg)), [Transcribe (PySlice.slice y a b)], [].
        split.
        { apply writes_bind_ret_l, writes_bind_ret_l, writes_bind_emit.
          rewrite Htm. apply writes_bind_raise_l. }
        exists 0%nat, tr, cls, msg. repeat split; try done.
        - unfold turn_text. by rewrite Hsamples, Htm.
        - exists 1%nat. split; [lia|]. cbn. rewrite take_0. by repeat constructor. }
    assert (Htext : turn_text tm y sr tr = Returns (PyStr.strip text)).
    { unfold turn_text. by rewrite Hsamples, Htm. }
    destruct IH as (r & evs & lines & Hrun & Hr).
    exists r. eexists. exists (written_line tr (PyStr.strip text) :: lines).
    split.
    { apply writes_bind_ret_l, writes_bind_ret_l, writes_bind_emit.
      rewrite Htm. apply writes_bind_ret_l. cbn beta zeta.
      unfold print. apply writes_bind_emit.
      apply writes_bind_file_write. exact Hrun. }
    destruct r as [[]|e].
    + destruct Hr as (Hlines & Hsl). split.
      * constructor; [by eexists|done].
      * cbn. by constructor.
    + destruct Hr as (j & tr' & cls & msg & Hj & Hthrow & -> & Hlines & k & Hk & Hsl).
      exists (S j), tr', cls, msg. repeat split; try done.
      * cbn. constructor; [by eexists|done].
      * exists (S k). split; [lia|]. cbn. by constructor.
Qed.

(** *** Running straight-line code *)

Lemma run_bind_ret {A B : Type} (a : A) (f : A -> M B) w : (mret a ≫= f) w = f a w.
Proof. reflexivity. Qed.

Lemma run_bind_emit {B : Type} ev (f : unit -> M B) w :
  (emit ev ≫= f) w = f tt (with_trace (trace w ++ [ev]) w).
Proof. reflexivity. Qed.

Lemma run_bind_gets {A B : Type} (g : world -> A) (f : A -> M B) w :
  (gets g ≫= f) w = f (g w) w.
Proof. reflexivity. Qed.

Lemma run_bind_modify {B : Type} (g : world -> world) (f : unit -> M B) w :
  (modify g ≫= f) w = f tt (g w).
Proof. reflexivity. Qed.

Lemma run_bind_raise {A B : Type} e (f : A -> M B) w :
  (@raise A e ≫= f) w = (Raise e, w).
Proof. reflexivity. Qed.

Lemma run_bind_assoc {A B C : Type} (m : M A) (f : A -> M B) (g : B -> M C) w :
  ((m ≫= f) ≫= g) w = (m ≫= (fun a => f a ≫= g)) w.
Proof. rewrite !bind_run. destruct (m w) as [[a|e] w1]; [|done]. by rewrite bind_run. Qed.

Lemma run_bind_when {B : Type} (b : bool) (m : M unit) (f : unit -> M B) w :
  (when b m ≫= f) w = if b then (m ≫= f) w else f tt w.
Proof. by destruct b. Qed.

Lemma run_bind_lift_returns {A B : Type} (x : external A) a (f : A -> M B) w :
  x = Returns a -> (lift x ≫= f) w = f a w.
Proof. by intros ->. Qed.

Lemma run_bind_lift_throws {A B : Type} (x : external A) cls msg (f : A -> M B) w :
  x = Throws cls msg -> (lift x ≫= f) w = (Raise (Exception cls msg), w).
Proof. by intros ->. Qed.

Lemma run_bind_ensure_dir {B : Type} (d : string) (f : unit -> M B) w :
  (ensure_dir d ≫= f) w =
  f tt (with_dirs (if bool_decide (d ∈ dirs w) then dirs w else {[ d ]} ∪ dirs w) w).
Proof.
  unfold ensure_dir. rewrite run_bind_assoc, run_bind_gets, run_bind_when.
  destruct (bool_decide (d ∈ dirs w)); cbn [negb]; [|done].
  by destruct w.
Qed.

Ltac run_step :=
  first [ rewrite run_bind_ret | rewrite run_bind_emit | rewrite run_bind_gets
        | rewrite run_bind_modify | rewrite run_bind_raise
        | rewrite run_bind_assoc | rewrite run_bind_when ].

Ltac run := repeat run_step; cbn beta iota zeta.

Lemma added_app w t f d : added w (with_files f (with_dirs d (with_trace (trace w ++ t) w))) = t.
Proof. unfold added. cbn. by rewrite drop_app_length. Qed.

(** What [main.py] does once its models are loaded and the audio read. *)
Lemma main_py_run lib w dp tracks tm y sr :
  Pipeline_from_pretrained lib diarization_model_name (environ w !! "HF_TOKEN") = Returns dp ->
  dp (main_py_file_path lib) = Returns tracks ->
  whisper_load_model lib "base" "cpu" = Returns tm ->
  librosa_load lib (main_py_file_path lib) 16000 = Returns (y, sr) ->
  exists r w' lines,
    main_py lib w = (r, w') /\
    files w' !! main_py_output_path lib = Some (concat_strings lines) /\
    match r with
    | Return _ =>
        Forall2 (fun tr ln => exists text,
                   turn_text tm y sr tr = Returns text /\ ln = written_line tr text)
          tracks lines /\
        Forall2 (fun tr s => turn_samples y sr tr = Returns s)
          tracks (transcribed (added w w'))
    | Raise e =>
        exists j tr cls msg,
          tracks !! j = Some tr /\
          turn_text tm y sr tr = Throws cls msg /\ e = Exception cls msg /\
          Forall2 (fun tr ln => exists text,
                     turn_text tm y sr tr = Returns text /\ ln = written_line tr text)
            (take j tracks) lines /\
          exists k, (j <= k <= S j)%nat /\
            Forall2 (fun tr s => turn_samples y sr tr = Returns s)
              (take k tracks) (transcribed (added w w'))
    end.
Proof.
  intros Hfp Hdp Htm Hload.
  destruct (main_py_segments_run tm y sr (main_py_output_path lib) tracks)
    as (r & evs & lines & Hrun & Hr).
  unfold main_py_file_path, main_py_output_path in *.
  set (d := if bool_decide (PyStr.path_join (ROOT_FOLDER lib) OUTPUT_FOLDER ∈ dirs w)
            then dirs w
            else {[PyStr.path_join (ROOT_FOLDER lib) OUTPUT_FOLDER]} ∪ dirs w).
  assert (Hmain : exists t,
    main_py lib w =
      (match r with Return _ => Return tt | Raise e => Raise e end,
       with_files (<[PyStr.path_join (PyStr.path_join (ROOT_FOLDER lib) OUTPUT_FOLDER)
                       output_filename := concat_strings lines]> (files w))
         (with_dirs d (with_trace (trace w ++ t) w))) /\
    transcribed t = transcribed evs).
  { unfold main_py, print, open_w, itertracks_yield_label.
    rewrite run_bind_ensure_dir. fold d. run.
    cbn [environ with_trace with_dirs].
    rewrite (run_bind_lift_returns _ _ _ _ Hfp). run.
    rewrite (run_bind_lift_returns _ _ _ _ Hdp). run.
    rewrite (run_bind_lift_returns _ _ _ _ Htm). run.
    rewrite (run_bind_lift_returns _ _ _ _ Hload). run.
    rewrite bind_run.
    rewrite (Hrun _ "") by (cbn; apply lookup_insert_eq).
    cbn [files with_files with_trace with_dirs trace dirs].
    rewrite insert_insert_eq. cbn [String.append].
    destruct r as [[]|e].
    - rewrite run_bind_emit || (unfold emit). eexists. split.
      + cbn. rewrite <- !app_assoc. cbn [app]. reflexivity.
      + unfold transcribed. cbn. rewrite omap_app. cbn. by rewrite app_nil_r.
    - eexists. split.
      + cbn. rewrite <- !app_assoc. cbn [app]. reflexivity.
      + done. }
  destruct Hmain as (t & Hmain & Ht).
  eexists _, _, lines. split; [exact Hmain|]. split.
  { cbn. apply lookup_insert_eq. }
  rewrite added_app, Ht. destruct r as [[]|e]; exact Hr.
Qed.

(** ** The records of [process_audio] *)

Lemma turn_samples_is_slice y sr tr s :
  turn_samples y sr tr = Returns s -> is_slice_of y sr tr s.
Proof.
  unfold turn_samples, is_slice_of.
  destruct (sample_index (start tr.1.1) sr) as [a|]; [|done].
  destruct (sample_index (end_ tr.1.1) sr) as [b|]; [|done].
  intros [= <-]. eauto.
Qed.

Lemma added_emits w evs : added w (with_trace (trace w ++ evs) w) = evs.
Proof. unfold added. cbn. by rewrite drop_app_length. Qed.

Lemma omap_sublist {A B : Type} (f : A -> option B) (l : list A) :
  exists kept, sublist kept l /\ Forall2 (fun b a => f a = Some b) (omap f l) kept.
Proof.
  induction l as [|a l (kept & Hsub & Hall)].
  - exists []. split; constructor.
  - cbn. destruct (f a) as [b|] eqn:E.
    + exists (a :: kept). split; [by constructor|by constructor].
    + exists kept. split; [by constructor|done].
Qed.

Lemma record_of_Some tm y sr tr seg :
  record_of tm y sr tr = Some seg ->
  seg = record tr (seg_text seg) /\
  turn_text tm y sr tr = Returns (seg_text seg) /\
  PyStr.truthy (seg_text seg) = true.
Proof.
  unfold record_of. destruct (turn_text tm y sr tr) as [text|]; [|done].
  destruct (PyStr.truthy text) eqn:E; [|done]. by intros [= <-].
Qed.

Lemma record_of_empty tm y sr tr :
  turn_text tm y sr tr = Returns "" -> record_of tm y sr tr = None.
Proof. unfold record_of. by intros ->. Qed.

(** The records are those of the turns whose stripped text is not empty,
    and no other. *)
Lemma process_audio_records lib dp tm p tracks w segs y sr w' :
  dp p = Returns tracks ->
  process_audio lib dp tm p w = (Return (segs, y, sr), w') ->
  librosa_load lib p 16000 = Returns (y, sr) /\
  Forall (answered tm y sr) tracks /\
  segs = omap (record_of tm y sr) tracks.
Proof.
  intros Hdp Hrun.
  destruct (process_audio_run lib dp tm p) as (r & evs & Hemits & Hr).
  destruct (emits_result _ _ _ _ _ _ Hemits Hrun) as [<- ->].
  rewrite Hdp in Hr.
  destruct (librosa_load lib p 16000) as [[y0 sr0]|]; [|by destruct Hr].
  by destruct Hr as (-> & -> & Hall & Hsegs & _).
Qed.

(** In [process_audio] a turn whose stripped text is empty gives no
    record: the records are those of the other turns, in order, and every
    record has a text that is not empty. *)
Theorem process_audio_drops_empty_turns lib dp tm p tracks w segs y sr w' :
  dp p = Returns tracks ->
  process_audio lib dp tm p w = (Return (segs, y, sr), w') ->
  segs = omap (record_of tm y sr) tracks /\
  Forall (fun tr => turn_text tm y sr tr = Returns "" -> record_of tm y sr tr = None) tracks /\
  Forall (fun seg => PyStr.truthy (seg_text seg) = true) segs.
Proof.
  intros Hdp Hrun.
  destruct (process_audio_records _ _ _ _ _ _ _ _ _ _ Hdp Hrun) as (_ & _ & ->).
  split; [done|]. split.
  - apply Forall_forall. intros tr _. apply record_of_empty.
  - apply Forall_forall. intros seg Hin.
    apply list_elem_of_omap in Hin as (tr & _ & Hrec).
    by apply record_of_Some in Hrec as (_ & _ & ?).
Qed.

(** C6: every record of [process_audio] is built from one turn: start, end
    and speaker are the turn's, the fourth field is its stripped text; the
    records follow the order of the turns. *)
Theorem process_audio_records_follow_turns lib dp tm p tracks w segs y sr w' :
  dp p = Returns tracks ->
  process_audio lib dp tm p w = (Return (segs, y, sr), w') ->
  exists kept,
    sublist kept tracks /\
    Forall2 (fun seg tr =>
               seg = {| seg_start := start tr.1.1; seg_end := end_ tr.1.1;
                        seg_speaker := tr.2; seg_text := seg_text seg |} /\
               turn_text tm y sr tr = Returns (seg_text seg))
      segs kept.
Proof.
  intros Hdp Hrun.
  destruct (process_audio_records _ _ _ _ _ _ _ _ _ _ Hdp Hrun) as (_ & _ & ->).
  destruct (omap_sublist (record_of tm y sr) tracks) as (kept & Hsub & Hall).
  exists kept. split; [done|].
  eapply Forall2_impl; [exact Hall|].
  intros seg tr Hrec. by apply record_of_Some in Hrec as (? & ? & _).
Qed.

(** C8: the outcome of [process_audio] for given models and path is the
    same from any two worlds (session, caches, files, earlier trace); two
    runs that return give the same number of segments and of speakers. *)
Theorem process_audio_deterministic lib dp tm p w1 w2 :
  (process_audio lib dp tm p w1).1 = (process_audio lib dp tm p w2).1 /\
  match (process_audio lib dp tm p w1).1, (process_audio lib dp tm p w2).1 with
  | Return (segs1, _, _), Return (segs2, _, _) =>
      length segs1 = length segs2 /\ speaker_count segs1 = speaker_count segs2
  | Raise e1, Raise e2 => e1 = e2
  | _, _ => False
  end.
Proof.
  destruct (process_audio_run lib dp tm p) as (r & evs & Hemits & _).
  rewrite (Hemits w1), (Hemits w2). cbn. split; [done|].
  destruct r as [[[segs y] sr]|e]; done.
Qed.

(** ** The slices handed to the transcription model *)

Lemma Forall2_slices y sr (l : list track) (ss : list (list sample)) :
  Forall2 (fun tr s => turn_samples y sr tr = Returns s) l ss ->
  Forall2 (is_slice_of y sr) l ss.
Proof.
  intros H. eapply Forall2_impl; [exact H|]. intros tr s. apply turn_samples_is_slice.
Qed.

Lemma process_audio_slices_match lib dp tm tracks y sr p w r w' :
  dp p = Returns tracks ->
  librosa_load lib p 16000 = Returns (y, sr) ->
  process_audio lib dp tm p w = (r, w') ->
  slices_match y sr tracks r (added w w').
Proof.
  intros Hdp Hload Hrun.
  destruct (process_audio_run lib dp tm p) as (r0 & evs & Hemits & Hr).
  destruct (emits_result _ _ _ _ _ _ Hemits Hrun) as [-> ->].
  rewrite added_emits. rewrite Hdp, Hload in Hr.
  destruct r0 as [[[segs y'] sr']|e].
  - destruct Hr as (_ & _ & _ & _ & Hsl & _).
    exists (length tracks). split; [lia|]. split; [done|].
    rewrite firstn_all. by apply Forall2_slices.
  - destruct Hr as (j & tr & cls & msg & Hj & _ & _ & _ & k & Hk & Hsl).
    exists k. split; [|split; [done|by apply Forall2_slices]].
    apply lookup_lt_Some in Hj. lia.
Qed.

Lemma main_py_slices_match lib dp tm tracks y sr w r w' :
  Pipeline_from_pretrained lib diarization_model_name (environ w !! "HF_TOKEN")
    = Returns dp ->
  dp (main_py_file_path lib) = Returns tracks ->
  whisper_load_model lib "base" "cpu" = Returns tm ->
  librosa_load lib (main_py_file_path lib) 16000 = Returns (y, sr) ->
  main_py lib w = (r, w') ->
  slices_match y sr tracks r (added w w').
Proof.
  intros Hfp Hdp Htm Hload Hrun.
  destruct (main_py_run lib w dp tracks tm y sr Hfp Hdp Htm Hload)
    as (r0 & w0 & lines & Hmain & _ & Hr).
  rewrite Hmain in Hrun. inversion Hrun; subst r0 w0.
  destruct r as [[]|e].
  - destruct Hr as (_ & Hsl).
    exists (length tracks). split; [lia|]. split; [done|].
    rewrite firstn_all. by apply Forall2_slices.
  - destruct Hr as (j & tr & cls & msg & Hj & _ & _ & _ & k & Hk & Hsl).
    exists k. split; [|split; [done|by apply Forall2_slices]].
    apply lookup_lt_Some in Hj. lia.
Qed.

(** C2: in [process_audio] and in [main.py] alike, the samples handed to
    the transcription model are, turn by turn and in order,
    [y[int(start * sr) : int(end * sr)]] of the loaded waveform: slicing
    the waveform again with the same conversion gives the same ranges. *)
Theorem transcribed_slices_are_turn_ranges lib dp tm tracks y sr :
  (forall p w r w',
     dp p = Returns tracks ->
     librosa_load lib p 16000 = Returns (y, sr) ->
     process_audio lib dp tm p w = (r, w') ->
     slices_match y sr tracks r (added w w')) /\
  (forall w r w',
     Pipeline_from_pretrained lib diarization_model_name (environ w !! "HF_TOKEN")
       = Returns dp ->
     dp (main_py_file_path lib) = Returns tracks ->
     whisper_load_model lib "base" "cpu" = Returns tm ->
     librosa_load lib (main_py_file_path lib) 16000 = Returns (y, sr) ->
     main_py lib w = (r, w') ->
     slices_match y sr tracks r (added w w')).
Proof.
  split.
  - intros p w r w'. apply process_audio_slices_match.
  - intros w r w'. apply main_py_slices_match.
Qed.

(** ** The transcript lines *)

Lemma transcript_line_spec st en sp tx :
  transcript_line st en sp tx
  = spec_transcript_line (seconds_2f st) (seconds_2f en) sp tx.
Proof.
  unfold transcript_line, spec_transcript_line, seconds_2f.
  by rewrite !string_app_assoc.
Qed.

Lemma display_segments_emits segments :
  emits (display_segments segments) (Return tt) (map segment_card segments).
Proof.
  induction segments as [|seg rest IH]; [apply emits_ret|].
  cbn [display_segments map]. by apply emits_bind_emit.
Qed.

Lemma display_emits lib segments y sr audio_bytes :
  soundfile_write lib (Value y) (Value sr) = Returns audio_bytes ->
  emits (display_transcription_with_audio lib segments (Value y) (Value sr))
    (Return tt)
    (StElement "subheader" "🎵 Audio Player" :: SoundfileWrite y sr
     :: StAudio audio_bytes :: StElement "subheader" "📝 Transcription"
     :: map segment_card segments).
Proof.
  intros Hsf. unfold display_transcription_with_audio, create_audio_bytes, st_element.
  apply emits_bind_emit.
  apply (emits_bind _ _ audio_bytes [SoundfileWrite y sr]).
  - apply (emits_bind_emit _ _ _ []). rewrite Hsf. apply emits_ret.
  - apply emits_bind_emit, emits_bind_emit. apply display_segments_emits.
Qed.

Lemma transcription_text_spec segments :
  transcription_text segments
  = PyStr.join PyStr.newline
      (map (fun s => spec_transcript_line (seconds_2f (seg_start s))
                       (seconds_2f (seg_end s)) (seg_speaker s) (seg_text s))
           segments).
Proof.
  unfold transcription_text. f_equal. apply map_ext. intros s.
  apply transcript_line_spec.
Qed.

(** What the display block shows for stored segments, when the audio can
    be encoded. *)
Lemma show_results_run lib w seg segs y sr audio_bytes :
  processed_segments (session w) = Value (seg :: segs) ->
  processed_audio_data (session w) = Value y ->
  processed_sample_rate (session w) = Value sr ->
  soundfile_write lib (Value y) (Value sr) = Returns audio_bytes ->
  exists evs,
    show_results lib w =
      (Return tt,
       with_trace (trace w ++ evs ++
         [StDownloadButton "📥 Download Transcription"
            (PyStr.join PyStr.newline
               (map (fun s => spec_transcript_line (seconds_2f (seg_start s))
                                (seconds_2f (seg_end s)) (seg_speaker s) (seg_text s))
                    (seg :: segs)))
            ("transcription_" ++ slot_str (processed_file_name (session w)) ++ ".txt")
            "text/plain"]) w).
Proof.
  intros Hsegs Hy Hsr Hsf.
  unfold show_results. rewrite run_bind_gets, Hsegs, Hy, Hsr.
  rewrite <- transcription_text_spec.
  match goal with |- context [ (?m ≫= ?f) w ] =>
    assert (Hm : exists evs, emits (m ≫= f) (Return tt) (evs ++ [StDownloadButton
      "📥 Download Transcription" (transcription_text (seg :: segs))
      ("transcription_" ++ slot_str (processed_file_name (session w)) ++ ".txt")
      "text/plain"]))
  end.
  { eexists (_ :: _). rewrite <- app_comm_cons. apply emits_bind_emit.
    eapply emits_bind; [by apply display_emits|]. apply emits_emit. }
  destruct Hm as (evs & Hm). exists evs. apply Hm.
Qed.

(** C7: each line [main.py] writes and each line behind the download
    button of the app reads [start --> end] speaker: text with the two
    times printed with two decimals and the unit s; there is one line per
    turn in the file and one per stored segment in the download. *)
Theorem transcript_lines_have_the_spec_format lib :
  (forall w dp tracks tm y sr w',
     Pipeline_from_pretrained lib diarization_model_name (environ w !! "HF_TOKEN")
       = Returns dp ->
     dp (main_py_file_path lib) = Returns tracks ->
     whisper_load_model lib "base" "cpu" = Returns tm ->
     librosa_load lib (main_py_file_path lib) 16000 = Returns (y, sr) ->
     main_py lib w = (Return tt, w') ->
     exists lines,
       files w' !! main_py_output_path lib = Some (concat_strings lines) /\
       Forall2 (fun tr ln => exists text,
                  turn_text tm y sr tr = Returns text /\
                  ln = spec_transcript_line (seconds_2f (start tr.1.1))
                         (seconds_2f (end_ tr.1.1)) tr.2 text ++ PyStr.newline)
         tracks lines) /\
  (forall w seg segs y sr audio_bytes,
     processed_segments (session w) = Value (seg :: segs) ->
     processed_audio_data (session w) = Value y ->
     processed_sample_rate (session w) = Value sr ->
     soundfile_write lib (Value y) (Value sr) = Returns audio_bytes ->
     exists evs,
       show_results lib w =
         (Return tt,
          with_trace (trace w ++ evs ++
            [StDownloadButton "📥 Download Transcription"
               (PyStr.join PyStr.newline
                  (map (fun s => spec_transcript_line (seconds_2f (seg_start s))
                                   (seconds_2f (seg_end s)) (seg_speaker s) (seg_text s))
                       (seg :: segs)))
               ("transcription_" ++ slot_str (processed_file_name (session w)) ++ ".txt")
               "text/plain"]) w)).
Proof.
  split.
  - intros w dp tracks tm y sr w' Hfp Hdp Htm Hload Hrun.
    destruct (main_py_run lib w dp tracks tm y sr Hfp Hdp Htm Hload)
      as (r0 & w0 & lines & Hmain & Hfile & Hr).
    rewrite Hmain in Hrun. inversion Hrun; subst r0 w0.
    destruct Hr as (Hlines & _). exists lines. split; [done|].
    eapply Forall2_impl; [exact Hlines|].
    intros tr ln (text & Htext & ->). exists text. split; [done|].
    unfold written_line. by rewrite transcript_line_spec.
  - intros. by eapply show_results_run.
Qed.

(** ** The upload block of [main] *)

(** the [finally] clause *)
Lemma cleanup_run tmp w :
  (tmp_exists ← gets (fun w => bool_decide (is_Some (files w !! tmp))) ;
   when tmp_exists (modify (fun w => with_files (delete tmp (files w)) w))) w
  = (Return tt, with_files (delete tmp (files w)) w).
Proof.
  rewrite run_bind_gets. case_bool_decide as H; cbn; [done|].
  rewrite delete_id; [by destruct w|].
  by apply eq_None_not_Some.
Qed.

Lemma cache_data_run lib dp tm p w :
  exists r evs,
    emits (process_audio lib dp tm p) r evs /\
    cache_data (process_audio lib dp tm) p w =
      match data_cache w !! p with
      | Some hit => (Return hit, w)
      | None =>
          match r with
          | Return res =>
              (Return res,
               with_data_cache (<[p := res]> (data_cache w))
                 (with_trace (trace w ++ evs) w))
          | Raise e => (Raise e, with_trace (trace w ++ evs) w)
          end
      end.
Proof.
  destruct (process_audio_run lib dp tm p) as (r & evs & Hemits & _).
  exists r, evs. split; [done|]. unfold cache_data.
  destruct (data_cache w !! p); [done|]. rewrite Hemits. by destruct r.
Qed.

Lemma process_audio_raises_exception lib dp tm p evs e :
  emits (process_audio lib dp tm p) (Raise e) evs ->
  exists cls msg, e = Exception cls msg.
Proof.
  intros Hemits.
  destruct (process_audio_run lib dp tm p) as (r & evs' & Hemits' & Hr).
  destruct (emits_functional _ _ _ _ _ Hemits Hemits') as [<- <-].
  destruct (dp p) as [tracks|cls msg]; [|destruct Hr as [[= ->] _]; eauto].
  destruct (librosa_load lib p 16000) as [[y sr]|cls msg];
    [|destruct Hr as [[= ->] _]; eauto].
  destruct Hr as (_ & _ & cls & msg & _ & _ & _ & -> & _). eauto.
Qed.

(** C3: when processing the upload raises, the block shows the error and
    returns; the temporary file is gone; the four session fields and both
    caches are what they were before the run. *)
Theorem failed_processing_leaves_session_unchanged
    lib dp tm name content tmp w e :
  (cache_data (process_audio lib dp tm) tmp
     (with_files (<[tmp := content]> (files w)) w)).1 = Raise e ->
  exists cls msg evs w',
    e = Exception cls msg /\
    process_upload lib dp tm name content tmp w = (Return tt, w') /\
    added w w' = (evs ++ [StError ("❌ Error processing audio: " ++ msg)])%list /\
    files w' !! tmp = None /\
    session w' = session w /\
    data_cache w' = data_cache w /\
    resource_cache w' = resource_cache w.
Proof.
  set (w0 := with_files (<[tmp := content]> (files w)) w).
  intros Hraise.
  destruct (cache_data_run lib dp tm tmp w0) as (r & evs & Hemits & Hcache).
  rewrite Hcache in Hraise.
  destruct (data_cache w0 !! tmp) as [hit|] eqn:Hhit; [done|].
  destruct r as [res|e0]; [done|]. cbn in Hraise. injection Hraise as ->.
  destruct (process_audio_raises_exception _ _ _ _ _ _ Hemits) as (cls & msg & ->).
  exists cls, msg, evs. eexists. split; [done|].
  split.
  { unfold process_upload. rewrite run_bind_modify. fold w0.
    unfold try_finally, try_except. rewrite bind_run, Hcache. cbn [fst snd].
    unfold st_error. cbn [emit]. rewrite cleanup_run. reflexivity. }
  cbn. repeat split.
  - unfold added. cbn. rewrite <- app_assoc. by rewrite drop_app_length.
  - apply lookup_delete_eq.
Qed.

(** ** Invariants of a script run *)

Section Keeps.

Context (I : world -> Prop).

Lemma keeps_ret {A : Type} (a : A) (Q : A -> Prop) : Q a -> keeps I (mret a) Q.
Proof. intros HQ w Hw. by split. Qed.

Lemma keeps_raise {A : Type} (e : exn) (Q : A -> Prop) : keeps I (raise e) Q.
Proof. intros w Hw. by split. Qed.

Lemma keeps_lift {A : Type} (x : external A) : keeps I (lift x) (fun a => x = Returns a).
Proof. intros w Hw. destruct x; by split. Qed.

Lemma keeps_gets {A : Type} (g : world -> A) :
  keeps I (gets g) (fun a => exists w, I w /\ a = g w).
Proof. intros w Hw. split; [done|]. cbn. eauto. Qed.

Lemma keeps_modify (g : world -> world) :
  (forall w, I w -> I (g w)) -> keeps I (modify g) (fun _ => True).
Proof. intros Hg w Hw. split; [by apply Hg|done]. Qed.

Lemma keeps_emit (ev : event) :
  (forall w t, I w -> I (with_trace t w)) -> keeps I (emit ev) (fun _ => True).
Proof. intros Ht w Hw. split; [by apply Ht|done]. Qed.

Lemma keeps_bind {A B : Type} (m : M A) (f : A -> M B) (Q : A -> Prop) (R : B -> Prop) :
  keeps I m Q -> (forall a, Q a -> keeps I (f a) R) -> keeps I (m ≫= f) R.
Proof.
  intros Hm Hf w Hw. rewrite bind_run.
  destruct (Hm w Hw) as [HI HQ]. destruct (m w) as [[a|e] w1]; cbn in *.
  - by apply Hf.
  - done.
Qed.

Lemma keeps_weaken {A : Type} (m : M A) (Q R : A -> Prop) :
  keeps I m Q -> (forall a, Q a -> R a) -> keeps I m R.
Proof.
  intros Hm HQR w Hw. destruct (Hm w Hw) as [HI HQ]. split; [done|].
  destruct (m w).1; [by apply HQR|done].
Qed.

Lemma keeps_when (b : bool) (m : M unit) :
  keeps I m (fun _ => True) -> keeps I (when b m) (fun _ => True).
Proof. intros Hm. destruct b; cbn; [done|]. by apply keeps_ret. Qed.

Lemma keeps_try_except {A : Type} (body : M A) (h : string -> string -> M A) (Q : A -> Prop) :
  keeps I body Q -> (forall cls msg, keeps I (h cls msg) Q) ->
  keeps I (try_except body h) Q.
Proof.
  intros Hb Hh w Hw. unfold try_except.
  destruct (Hb w Hw) as [HI HQ]. destruct (body w) as [[a|[cls msg| |]] w1]; cbn in *;
    try done.
  by apply Hh.
Qed.

Lemma keeps_try_finally {A : Type} (body : M A) (final : M unit)
    (Q : A -> Prop) (R : unit -> Prop) :
  keeps I body Q -> keeps I final R -> keeps I (try_finally body final) Q.
Proof.
  intros Hb Hf w Hw. unfold try_finally.
  destruct (Hb w Hw) as [HI HQ]. destruct (body w) as [r w1]; cbn in *.
  destruct (Hf w1 HI) as [HI2 _]. destruct (final w1) as [[[]|e] w2]; cbn in *; done.
Qed.

Lemma keeps_cache_resource (f : M (pipeline * whisper_model)) (Q : _ -> Prop) :
  (forall w c, I w -> I (with_resource_cache c w)) ->
  keeps I f Q -> keeps I (cache_resource f) (fun _ => True).
Proof.
  intros Hc Hf w Hw. unfold cache_resource.
  destruct (resource_cache w); [done|].
  destruct (Hf w Hw) as [HI _]. destruct (f w) as [[r|e] w1]; cbn in *; [|done].
  split; [by apply Hc|done].
Qed.

Lemma keeps_emits {A : Type} (m : M A) r evs :
  (forall w t, I w -> I (with_trace t w)) ->
  emits m r evs -> keeps I m (fun a => r = Return a).
Proof.
  intros Ht Hm w Hw. rewrite Hm. cbn. split; [by apply Ht|]. by destruct r.
Qed.

End Keeps.

(** a script step, whatever it is, keeps an invariant that does not read
    the trace, the files or the resource cache *)
Ltac keeps_step :=
  lazymatch goal with
  | |- keeps _ (mret ?a) _ =>
      first [ apply (keeps_ret _ a (fun x => x = a)); reflexivity
            | apply keeps_ret; try done ]
  | |- keeps _ (raise _) _ =>
      first [ apply (keeps_raise _ _ (fun _ => False)) | apply keeps_raise ]
  | |- keeps _ st_stop _ =>
      first [ apply (keeps_raise _ _ (fun _ => False)) | apply keeps_raise ]
  | |- keeps _ st_rerun _ =>
      first [ apply (keeps_raise _ _ (fun _ => False)) | apply keeps_raise ]
  | |- keeps _ (emit _) _ => apply keeps_emit; try done
  | |- keeps _ (st_error _) _ => apply keeps_emit; try done
  | |- keeps _ (st_success _) _ => apply keeps_emit; try done
  | |- keeps _ (st_warning _) _ => apply keeps_emit; try done
  | |- keeps _ (st_info _) _ => apply keeps_emit; try done
  | |- keeps _ (st_element _ _) _ => apply keeps_emit; try done
  | |- keeps _ (lift _) _ => apply keeps_lift
  | |- keeps _ (gets _) _ => apply keeps_gets
  | |- keeps _ (modify _) _ => apply keeps_modify; try done
  | |- keeps _ (when _ _) _ => apply keeps_when
  | |- keeps _ (_ ≫= _) _ => eapply keeps_bind; [|intros ? ?]
  end.

Lemma load_models_keeps lib (I : world -> Prop) :
  (forall w t, I w -> I (with_trace t w)) ->
  keeps I (load_models lib) (fun _ => True).
Proof.
  intros Ht. unfold load_models.
  apply (keeps_weaken _ _ (fun _ => True)); [repeat keeps_step|done].
Qed.

Lemma display_segments_keeps (I : world -> Prop) segments :
  (forall w t, I w -> I (with_trace t w)) ->
  keeps I (display_segments segments) (fun _ => True).
Proof.
  intros Ht. eapply keeps_weaken.
  - eapply keeps_emits; [done|apply display_segments_emits].
  - done.
Qed.

Lemma show_results_keeps lib (I : world -> Prop) :
  (forall w t, I w -> I (with_trace t w)) ->
  keeps I (show_results lib) (fun _ => True).
Proof.
  intros Ht. unfold show_results.
  eapply keeps_bind; [apply keeps_gets|]. intros s _.
  destruct (processed_segments s) as [| |[|seg segs]]; try (by apply keeps_emit).
  unfold display_transcription_with_audio, create_audio_bytes.
  repeat keeps_step.
  - match goal with |- keeps _ _ ?Q => unify Q (fun _ : unit => True) end.
    destruct (processed_audio_data s), (processed_sample_rate s);
      try (by apply keeps_ret); by apply keeps_emit.
  - by apply display_segments_keeps.
Qed.

(** ** One run of [main] *)

Lemma run_bind_try_except {A B : Type} (body : M A) (h : string -> string -> M A)
    (f : A -> M B) a w w1 :
  body w = (Return a, w1) -> (try_except body h ≫= f) w = f a w1.
Proof. intros Hb. rewrite bind_run. unfold try_except. by rewrite Hb. Qed.

Lemma cache_resource_hit f w models :
  resource_cache w = Some models -> cache_resource f w = (Return models, w).
Proof. intros H. unfold cache_resource. by rewrite H. Qed.

Lemma main_with_cached_models lib ui w dp tm :
  resource_cache w = Some (dp, tm) ->
  main lib ui w = main_tail lib ui dp tm (main_head_world w).
Proof.
  intros Hres. unfold main, st_element, st_info. run.
  erewrite run_bind_try_except.
  2:{ rewrite bind_run. rewrite (cache_resource_hit _ _ (dp, tm)) by exact Hres.
      unfold st_success. run. reflexivity. }
  cbn beta iota. run. unfold main_tail, main_head_world, main_head_events.
  f_equal. cbn. rewrite <- !app_assoc. reflexivity.
Qed.

Lemma clear_results_run w :
  clear_results w = (Raise RerunException, with_session cleared_session w).
Proof. reflexivity. Qed.

(** C5: a click on Clear Results, which is offered once segments are
    stored, sets the four session fields to None; the script then asks for
    a rerun. *)
Theorem clear_results_resets_the_session lib ui w dp tm name content segs :
  resource_cache w = Some (dp, tm) ->
  uploaded_file ui = Some (name, content) ->
  processed_segments (session w) = Value segs ->
  clear_button ui = true ->
  exists w',
    main lib ui w = (Raise RerunException, w') /\
    processed_segments (session w') = PyNone /\
    processed_audio_data (session w') = PyNone /\
    processed_sample_rate (session w') = PyNone /\
    processed_file_name (session w') = PyNone.
Proof.
  intros Hres Hup Hsegs Hclear.
  rewrite (main_with_cached_models _ _ _ _ _ Hres).
  unfold main_tail. rewrite Hup, Hclear. unfold st_success, st_element. run.
  cbn [main_head_world session with_trace with_session init_session_state
       processed_segments].
  rewrite Hsegs. cbn [init_slot is_not_None]. run.
  rewrite bind_run, clear_results_run. eexists. split; [reflexivity|]. done.
Qed.

(** ** The sample rate *)

Lemma process_audio_rate lib dp tm p segs y sr evs :
  librosa_returns_requested_rate lib ->
  emits (process_audio lib dp tm p) (Return (segs, y, sr)) evs ->
  sr = 16000.
Proof.
  intros Hlib Hemits.
  destruct (process_audio_run lib dp tm p) as (r & evs' & Hemits' & Hr).
  destruct (emits_functional _ _ _ _ _ Hemits Hemits') as [<- <-].
  destruct (dp p) as [tracks|]; [|by destruct Hr].
  destruct (librosa_load lib p 16000) as [[y0 sr0]|] eqn:Hload; [|by destruct Hr].
  destruct Hr as (_ & -> & _). by apply Hlib in Hload.
Qed.

Lemma rate_ok_fresh w : fresh_world w -> rate_ok w.
Proof.
  intros (Hs & Hc & _). split.
  - intros p r. by rewrite Hc, lookup_empty.
  - intros sr. by rewrite Hs.
Qed.

Lemma cache_data_keeps_rate lib dp tm p :
  librosa_returns_requested_rate lib ->
  keeps rate_ok (cache_data (process_audio lib dp tm) p) (fun r => r.2 = 16000).
Proof.
  intros Hlib w [Hcache Hsess].
  destruct (cache_data_run lib dp tm p w) as (r & evs & Hemits & ->).
  destruct (data_cache w !! p) as [hit|] eqn:Hhit.
  - cbn. split; [by split|]. by eapply Hcache.
  - destruct r as [[[segs y] sr]|e]; cbn.
    + assert (sr = 16000) as -> by (by eapply process_audio_rate).
      split; [|done]. split; [|done].
      intros q r. cbn [data_cache with_data_cache].
      rewrite lookup_insert. case_decide; [by intros [= <-]|].
      apply Hcache.
    + split; [by split|done].
Qed.

Lemma store_result_keeps_rate r name :
  r.2 = 16000 -> keeps rate_ok (store_result r name) (fun _ => True).
Proof.
  intros Hr. destruct r as [[segs y] sr]. cbn in Hr. subst sr.
  apply keeps_modify. intros w [Hcache _]. split; [done|].
  cbn. by intros sr [= <-].
Qed.

Lemma process_upload_keeps_rate lib dp tm name content tmp :
  librosa_returns_requested_rate lib ->
  keeps rate_ok (process_upload lib dp tm name content tmp) (fun _ => True).
Proof.
  intros Hlib. unfold process_upload.
  keeps_step; [keeps_step|].
  eapply keeps_weaken; [|done].
  eapply keeps_try_finally.
  - apply keeps_try_except.
    + eapply keeps_bind; [by apply cache_data_keeps_rate|].
      intros r Hr. by apply store_result_keeps_rate.
    + intros cls msg. by apply keeps_emit.
  - keeps_step; [keeps_step|]. keeps_step. keeps_step.
Qed.

Lemma clear_results_keeps_rate : keeps rate_ok clear_results (fun _ => True).
Proof.
  intros w [Hcache _]. rewrite clear_results_run. cbn. split; [|done].
  split; [done|]. intros sr. by cbn.
Qed.

Lemma rate_ok_trace w t : rate_ok w -> rate_ok (with_trace t w).
Proof. done. Qed.

Lemma models_block_keeps lib (I : world -> Prop) :
  (forall w t, I w -> I (with_trace t w)) ->
  (forall w c, I w -> I (with_resource_cache c w)) ->
  keeps I
    (try_except
       (models ← cache_resource (load_models lib) ;
        st_success "✅ Models loaded successfully!" ;;
        mret models)
       (fun _ msg => st_error ("❌ Error loading models: " ++ msg) ;; st_stop))
    (fun _ => True).
Proof.
  intros Ht Hc. apply keeps_try_except.
  - eapply keeps_bind.
    + eapply keeps_cache_resource; [done|]. by apply load_models_keeps.
    + intros models _. eapply keeps_bind; [by apply keeps_emit|].
      intros _ _. by apply keeps_ret.
  - intros cls msg. eapply keeps_bind; [by apply keeps_emit|].
    intros _ _. apply keeps_raise.
Qed.

Lemma main_keeps_rate lib ui :
  librosa_returns_requested_rate lib ->
  keeps rate_ok (main lib ui) (fun _ => True).
Proof.
  intros Hlib. unfold main, st_element, st_info.
  do 3 (eapply keeps_bind; [by apply keeps_emit|intros _ _]).
  eapply keeps_bind.
  { apply keeps_modify. intros w [Hcache Hsess]. split; [done|].
    cbn [session with_session init_session_state processed_sample_rate].
    intros sr. destruct (processed_sample_rate (session w)) eqn:E; try done.
    cbn [init_slot]. intros [= <-]. by apply Hsess. }
  intros _ _.
  do 2 (eapply keeps_bind; [by apply keeps_emit|intros _ _]).
  eapply keeps_bind; [by apply models_block_keeps|].
  intros [dp tm] _. cbn beta iota.
  eapply keeps_bind; [by apply keeps_emit|intros _ _].
  destruct (uploaded_file ui) as [[name content]|].
  - unfold st_success.
    do 2 (eapply keeps_bind; [by apply keeps_emit|intros _ _]).
    eapply keeps_bind; [apply keeps_gets|intros segs _].
    eapply keeps_bind.
    { apply keeps_when. eapply keeps_bind; [by apply keeps_emit|intros _ _].
      apply keeps_when. apply clear_results_keeps_rate. }
    intros _ _.
    eapply keeps_bind.
    { apply keeps_when. by apply process_upload_keeps_rate. }
    intros _ _. by apply show_results_keeps.
  - eapply keeps_bind; [by apply keeps_emit|intros _ _]. by apply keeps_emit.
Qed.

Lemma reachable_rate_ok lib w :
  librosa_returns_requested_rate lib -> reachable lib w -> rate_ok w.
Proof.
  intros Hlib Hreach. induction Hreach as [w Hfresh|w ui _ IH].
  - by apply rate_ok_fresh.
  - by apply (main_keeps_rate lib ui Hlib w IH).
Qed.

(** C9: with [librosa.load] returning the rate it was asked for, the rate
    [process_audio] returns is 16000, the rate stored in the session is
    16000 in every world the app can reach, and [main.py] cuts its turns
    at 16000 samples per second. *)
Theorem sample_rate_is_always_16000 lib :
  librosa_returns_requested_rate lib ->
  (forall dp tm p w segs y sr w',
     process_audio lib dp tm p w = (Return (segs, y, sr), w') -> sr = 16000) /\
  (forall w sr,
     reachable lib w -> processed_sample_rate (session w) = Value sr -> sr = 16000) /\
  (forall w dp tracks tm y sr r w',
     Pipeline_from_pretrained lib diarization_model_name (environ w !! "HF_TOKEN")
       = Returns dp ->
     dp (main_py_file_path lib) = Returns tracks ->
     whisper_load_model lib "base" "cpu" = Returns tm ->
     librosa_load lib (main_py_file_path lib) 16000 = Returns (y, sr) ->
     main_py lib w = (r, w') ->
     sr = 16000 /\ slices_match y 16000 tracks r (added w w')).
Proof.
  intros Hlib. split; [|split].
  - intros dp tm p w segs y sr w' Hrun.
    destruct (process_audio_run lib dp tm p) as (r & evs & Hemits & _).
    destruct (emits_result _ _ _ _ _ _ Hemits Hrun) as [<- _].
    by eapply process_audio_rate.
  - intros w sr Hreach. by apply (reachable_rate_ok lib w Hlib Hreach).
  - intros w dp tracks tm y sr r w' Hfp Hdp Htm Hload Hrun.
    pose proof (Hlib _ _ _ _ Hload) as ->. split; [done|].
    by eapply (main_py_slices_match lib dp tm tracks y 16000).
Qed.

(** ** A diarization without turns *)

Lemma process_audio_no_turns lib dp tm p y sr :
  dp p = Returns [] ->
  librosa_load lib p 16000 = Returns (y, sr) ->
  emits (process_audio lib dp tm p) (Return ([], y, sr)) (no_turn_events p).
Proof.
  intros Hdp Hload. unfold process_audio, st_spinner, no_turn_events.
  apply emits_bind_emit, emits_bind_emit. rewrite Hdp. apply emits_bind_ret_l.
  apply emits_bind_emit, emits_bind_emit. rewrite Hload. apply emits_bind_ret_l.
  cbn beta iota zeta.
  apply emits_bind_emit, emits_bind_emit. cbn [itertracks_yield_label transcribe_segments].
  apply emits_bind_ret_l. apply emits_bind_emit, emits_ret.
Qed.

(** the upload block when [process_audio] returns: the result is cached
    and stored, and the temporary file is removed *)
Lemma process_upload_success lib dp tm name content tmp w segs y sr evs :
  data_cache w !! tmp = None ->
  emits (process_audio lib dp tm tmp) (Return (segs, y, sr)) evs ->
  process_upload lib dp tm name content tmp w =
    (Return tt,
     with_files (delete tmp (<[tmp := content]> (files w)))
       (with_session
          {| processed_segments := Value segs; processed_audio_data := Value y;
             processed_sample_rate := Value sr; processed_file_name := Value name |}
          (with_data_cache (<[tmp := (segs, y, sr)]> (data_cache w))
             (with_trace (trace w ++ evs) w)))).
Proof.
  intros Hmiss Hemits.
  unfold process_upload. rewrite run_bind_modify.
  unfold try_finally, try_except. rewrite bind_run.
  unfold cache_data. cbn [data_cache with_files]. rewrite Hmiss, Hemits.
  cbn [store_result modify]. rewrite cleanup_run. reflexivity.
Qed.

Lemma main_tail_process lib name content p dp tm w :
  main_tail lib {| uploaded_file := Some (name, content); process_button := true;
                   clear_button := false; tmp_path := p |} dp tm w
  = (process_upload lib dp tm name content p ≫= fun _ => show_results lib)
      (with_trace
         (trace w ++
          [StSuccess ("✅ File uploaded: " ++ name);
           StElement "button" "🚀 Process Audio"] ++
          (if is_not_None (processed_segments (session w))
           then [StElement "button" "🗑️ Clear Results"] else []))
         w).
Proof.
  unfold main_tail. cbn [uploaded_file process_button clear_button tmp_path].
  unfold st_success, st_element. run. cbn [session with_trace].
  destruct (processed_segments (session w)); cbn [is_not_None]; run;
    cbn [trace with_trace]; rewrite <- ?app_assoc; cbn [app];
    rewrite ?app_nil_r; reflexivity.
Qed.

(** C10: without turns [process_audio] returns an empty list and no
    progress update is made (only the bar is created and removed); a run of
    [main] that processes such a file stores the empty list and ends on
    the warning, with no result rendered. *)
Theorem no_turns_gives_no_segments_and_a_warning lib dp tm p y sr :
  dp p = Returns [] ->
  librosa_load lib p 16000 = Returns (y, sr) ->
  emits (process_audio lib dp tm p) (Return ([], y, sr)) (no_turn_events p) /\
  progress_updates (no_turn_events p) = [] /\
  forall w name content,
    resource_cache w = Some (dp, tm) ->
    data_cache w !! p = None ->
    exists w',
      main lib {| uploaded_file := Some (name, content); process_button := true;
                  clear_button := false; tmp_path := p |} w = (Return tt, w') /\
      processed_segments (session w') = Value [] /\
      last (trace w') = Some (StWarning "No segments found in the audio file.") /\
      progress_updates (added w w') = [] /\
      forallb (fun ev => negb (renders_results ev)) (added w w') = true.
Proof.
  intros Hdp Hload.
  pose proof (process_audio_no_turns lib dp tm p y sr Hdp Hload) as Hemits.
  split; [done|]. split; [done|].
  intros w name content Hres Hmiss.
  rewrite (main_with_cached_models _ _ _ _ _ Hres), main_tail_process.
  rewrite bind_run.
  erewrite process_upload_success; [|exact Hmiss|exact Hemits].
  unfold show_results. rewrite run_bind_gets.
  cbn [session with_files with_session processed_segments].
  eexists. split; [reflexivity|].
  cbn [session with_files with_session with_trace processed_segments trace].
  split; [done|]. split; [by rewrite last_snoc|].
  unfold added, main_head_world.
  cbn [trace environ files dirs session resource_cache data_cache with_trace
       with_files with_dirs with_session with_resource_cache with_data_cache].
  rewrite <- !app_assoc, drop_app_length.
  unfold progress_updates, main_head_events, no_turn_events.
  destruct (is_not_None (processed_segments (init_session_state (session w))));
    split; reflexivity.
Qed.

(** ** The batch scripts against the app *)

(** C1 at a concrete input: in the demo setting the second turn is
    transcribed to blanks. [process_audio] gives no record for it;
    [main.py] writes its line, with an empty text, between the two others. *)
Theorem main_py_writes_a_line_for_a_blank_turn :
  turn_text Demo.transcription_model Demo.waveform 16000
    ({| start := Demo.tick 1; end_ := Demo.tick 3 |}, "B", "SPEAKER_01") = Returns "" /\
  (main_py Demo.lib Demo.world0).1 = Return tt /\
  files (main_py Demo.lib Demo.world0).2 !! main_py_output_path Demo.lib =
    Some "[0.00s --> 0.01s] SPEAKER_00: hello
[0.01s --> 0.02s] SPEAKER_01: 
[0.02s --> 0.03s] SPEAKER_00: world
" /\
  match (process_audio Demo.lib Demo.diarization_pipeline Demo.transcription_model
           "/tmp/a.wav" Demo.world0).1 with
  | Return (segs, _, _) => map seg_speaker segs = ["SPEAKER_00"; "SPEAKER_00"]
                           /\ map seg_text segs = ["hello"; "world"]
  | Raise _ => False
  end.
Proof. vm_compute. repeat split; reflexivity. Qed.

(** C4 at a concrete input: without HF_TOKEN in the environment,
    [main.py] and [diarize.py] call [Pipeline.from_pretrained] with no
    token and report nothing about it; the app reports the missing token
    and stops before any model is built. *)
Theorem batch_scripts_build_the_pipeline_without_a_token :
  trace (main_py Demo.lib Demo.world_no_token).2 =
    [ TorchSetNumThreads 4;
      PrintLine "Step 1: Performing Speaker Diarization...";
      PipelineFromPretrained diarization_model_name None ] /\
  trace (diarize_py Demo.lib Demo.world_no_token).2 =
    [ PipelineFromPretrained diarization_model_name None ] /\
  load_models Demo.lib Demo.world_no_token =
    (Raise StopException,
     with_trace [StError hf_missing_message] Demo.world_no_token).
Proof. vm_compute. repeat split; reflexivity. Qed.

(** ** The theorems at concrete inputs *)

Lemma transcribed_slices_are_turn_ranges_witness :
  slices_match Demo.waveform 16000 Demo.diarization
    (process_audio Demo.lib Demo.diarization_pipeline Demo.transcription_model
       "/tmp/a.wav" Demo.world0).1
    (added Demo.world0
       (process_audio Demo.lib Demo.diarization_pipeline Demo.transcription_model
          "/tmp/a.wav" Demo.world0).2) /\
  slices_match Demo.waveform 16000 Demo.diarization
    (main_py Demo.lib Demo.world0).1
    (added Demo.world0 (main_py Demo.lib Demo.world0).2).
Proof.
  split.
  - apply (proj1 (transcribed_slices_are_turn_ranges Demo.lib
             Demo.diarization_pipeline Demo.transcription_model
             Demo.diarization Demo.waveform 16000) "/tmp/a.wav" Demo.world0).
    + reflexivity.
    + reflexivity.
    + apply surjective_pairing.
  - apply (proj2 (transcribed_slices_are_turn_ranges Demo.lib
             Demo.diarization_pipeline Demo.transcription_model
             Demo.diarization Demo.waveform 16000) Demo.world0).
    + reflexivity.
    + reflexivity.
    + reflexivity.
    + reflexivity.
    + apply surjective_pairing.
Defined.

Lemma failed_processing_leaves_session_unchanged_witness :
  exists cls msg evs w',
    Exception "ValueError" "not a WAV file" = Exception cls msg /\
    process_upload Demo.lib Demo.diarization_pipeline Demo.transcription_model
      "talk.wav" "RIFF" "/tmp/broken.wav" Demo.world_processed = (Return tt, w') /\
    added Demo.world_processed w'
      = (evs ++ [StError ("❌ Error processing audio: " ++ msg)])%list /\
    files w' !! "/tmp/broken.wav" = None /\
    session w' = session Demo.world_processed /\
    data_cache w' = data_cache Demo.world_processed /\
    resource_cache w' = resource_cache Demo.world_processed.
Proof.
  apply (failed_processing_leaves_session_unchanged Demo.lib
           Demo.diarization_pipeline Demo.transcription_model
           "talk.wav" "RIFF" "/tmp/broken.wav" Demo.world_processed).
  vm_compute. reflexivity.
Defined.

Lemma clear_results_resets_the_session_witness :
  exists w',
    main Demo.lib (Demo.upload "talk.wav" "/tmp/b.wav" false true)
      Demo.world_processed = (Raise RerunException, w') /\
    processed_segments (session w') = PyNone /\
    processed_audio_data (session w') = PyNone /\
    processed_sample_rate (session w') = PyNone /\
    processed_file_name (session w') = PyNone.
Proof.
  apply (clear_results_resets_the_session Demo.lib
           (Demo.upload "talk.wav" "/tmp/b.wav" false true) Demo.world_processed
           Demo.diarization_pipeline Demo.transcription_model
           "talk.wav" "RIFF....WAVE" Demo.segments).
  - vm_compute. reflexivity.
  - reflexivity.
  - vm_compute. reflexivity.
  - reflexivity.
Defined.

Lemma process_audio_records_follow_turns_witness :
  exists kept,
    sublist kept Demo.diarization /\
    Forall2 (fun seg tr =>
               seg = {| seg_start := start tr.1.1; seg_end := end_ tr.1.1;
                        seg_speaker := tr.2; seg_text := seg_text seg |} /\
               turn_text Demo.transcription_model Demo.waveform 16000 tr
                 = Returns (seg_text seg))
      Demo.segments kept.
Proof.
  apply (process_audio_records_follow_turns Demo.lib Demo.diarization_pipeline
           Demo.transcription_model "/tmp/a.wav" Demo.diarization Demo.world0
           Demo.segments Demo.waveform 16000
           (process_audio Demo.lib Demo.diarization_pipeline
              Demo.transcription_model "/tmp/a.wav" Demo.world0).2).
  - reflexivity.
  - vm_compute. reflexivity.
Defined.

Lemma sample_rate_is_always_16000_witness :
  (forall dp tm p w segs y sr w',
     process_audio Demo.lib dp tm p w = (Return (segs, y, sr), w') -> sr = 16000) /\
  (forall w sr,
     reachable Demo.lib w -> processed_sample_rate (session w) = Value sr -> sr = 16000) /\
  (forall w dp tracks tm y sr r w',
     Pipeline_from_pretrained Demo.lib diarization_model_name (environ w !! "HF_TOKEN")
       = Returns dp ->
     dp (main_py_file_path Demo.lib) = Returns tracks ->
     whisper_load_model Demo.lib "base" "cpu" = Returns tm ->
     librosa_load Demo.lib (main_py_file_path Demo.lib) 16000 = Returns (y, sr) ->
     main_py Demo.lib w = (r, w') ->
     sr = 16000 /\ slices_match y 16000 tracks r (added w w')).
Proof.
  apply (sample_rate_is_always_16000 Demo.lib).
  intros path sr y sr' H. cbn in H. by injection H as _ <-.
Defined.

Lemma no_turns_gives_no_segments_and_a_warning_witness :
  emits (process_audio Demo.lib Demo.diarization_pipeline Demo.transcription_model
           "/tmp/silence.wav")
    (Return ([], Demo.waveform, 16000)) (no_turn_events "/tmp/silence.wav") /\
  progress_updates (no_turn_events "/tmp/silence.wav") = [] /\
  exists w',
    main Demo.lib {| uploaded_file := Some ("quiet.wav", "RIFF");
                     process_button := true; clear_button := false;
                     tmp_path := "/tmp/silence.wav" |} Demo.world_processed
      = (Return tt, w') /\
    processed_segments (session w') = Value [] /\
    last (trace w') = Some (StWarning "No segments found in the audio file.") /\
    progress_updates (added Demo.world_processed w') = [] /\
    forallb (fun ev => negb (renders_results ev)) (added Demo.world_processed w') = true.
Proof.
  destruct (no_turns_gives_no_segments_and_a_warning Demo.lib
              Demo.diarization_pipeline Demo.transcription_model
              "/tmp/silence.wav" Demo.waveform 16000 eq_refl eq_refl)
    as (H1 & H2 & H3).
  split; [exact H1|]. split; [exact H2|].
  apply H3; vm_compute; reflexivity.
Defined.

Lemma transcript_lines_have_the_spec_format_witness :
  (exists lines,
     files (main_py Demo.lib Demo.world0).2 !! main_py_output_path Demo.lib
       = Some (concat_strings lines) /\
     Forall2 (fun tr ln => exists text,
                turn_text Demo.transcription_model Demo.waveform 16000 tr
                  = Returns text /\
                ln = spec_transcript_line (seconds_2f (start tr.1.1))
                       (seconds_2f (end_ tr.1.1)) tr.2 text ++ PyStr.newline)
       Demo.diarization lines) /\
  (exists evs,
     show_results Demo.lib Demo.world_processed =
       (Return tt,
        with_trace (trace Demo.world_processed ++ evs ++
          [StDownloadButton "📥 Download Transcription"
             (PyStr.join PyStr.newline
                (map (fun s => spec_transcript_line (seconds_2f (seg_start s))
                                 (seconds_2f (seg_end s)) (seg_speaker s) (seg_text s))
                     Demo.segments))
             ("transcription_"
              ++ slot_str (processed_file_name (session Demo.world_processed))
              ++ ".txt")
             "text/plain"]) Demo.world_processed)).
Proof.
  destruct (transcript_lines_have_the_spec_format Demo.lib) as [Hfile Hbutton].
  split.
  - apply (Hfile Demo.world0 Demo.diarization_pipeline Demo.diarization
             Demo.transcription_model Demo.waveform 16000).
    + reflexivity.
    + reflexivity.
    + reflexivity.
    + reflexivity.
    + vm_compute. reflexivity.
  - apply (Hbutton Demo.world_processed _ _ Demo.waveform 16000 "RIFF").
    + vm_compute. reflexivity.
    + vm_compute. reflexivity.
    + vm_compute. reflexivity.
    + reflexivity.
Defined.

(** ** Loading the models *)

Lemma load_models_no_token_run lib w :
  from_option PyStr.truthy false (environ w !! "HF_TOKEN") = false ->
  load_models lib w =
    (Raise StopException, with_trace (trace w ++ [StError hf_missing_message]) w).
Proof.
  intros Htok. unfold load_models. rewrite run_bind_gets, Htok.
  cbn [negb]. unfold st_error. run. reflexivity.
Qed.

(** [load_models] with no usable token: the error is shown, the script is
    stopped, and no model constructor is called. An empty token counts as
    missing. *)
Theorem load_models_fails_fast lib w :
  from_option PyStr.truthy false (environ w !! "HF_TOKEN") = false ->
  load_models lib w =
    (Raise StopException, with_trace (trace w ++ [StError hf_missing_message]) w).
Proof. apply load_models_no_token_run. Qed.

Lemma load_models_fails_fast_witness :
  load_models Demo.lib Demo.world_no_token =
    (Raise StopException,
     with_trace (trace Demo.world_no_token ++ [StError hf_missing_message])
       Demo.world_no_token).
Proof. apply load_models_fails_fast. reflexivity. Defined.

Lemma load_models_failed_pipeline_run lib w token cls msg :
  environ w !! "HF_TOKEN" = Some token ->
  PyStr.truthy token = true ->
  Pipeline_from_pretrained lib diarization_model_name (Some token) = Throws cls msg ->
  load_models lib w =
    (Raise (Exception cls msg),
     with_trace (trace w ++ [TorchSetNumThreads 4;
                             PipelineFromPretrained diarization_model_name (Some token)])
       w).
Proof.
  intros Henv Htok Hfp. unfold load_models. rewrite run_bind_gets, Henv.
  cbn [from_option]. rewrite Htok. cbn [negb]. run.
  rewrite (run_bind_lift_throws _ _ _ _ _ Hfp).
  cbn [trace with_trace]. by rewrite <- app_assoc.
Qed.

(** [load_models] with a token: the diarization pipeline is built first,
    with that token; when that fails the transcription model is not
    loaded and the exception leaves [load_models]. *)
Theorem load_models_stops_at_a_failed_pipeline lib w token cls msg :
  environ w !! "HF_TOKEN" = Some token ->
  PyStr.truthy token = true ->
  Pipeline_from_pretrained lib diarization_model_name (Some token) = Throws cls msg ->
  load_models lib w =
    (Raise (Exception cls msg),
     with_trace (trace w ++ [TorchSetNumThreads 4;
                             PipelineFromPretrained diarization_model_name (Some token)])
       w).
Proof. apply load_models_failed_pipeline_run. Qed.

Lemma load_models_stops_at_a_failed_pipeline_witness :
  load_models DemoFailures.lib_no_hub Demo.world0 =
    (Raise (Exception "OSError" "hub unreachable"),
     with_trace (trace Demo.world0 ++
                 [TorchSetNumThreads 4;
                  PipelineFromPretrained diarization_model_name (Some "hf_demo")])
       Demo.world0).
Proof.
  apply (load_models_stops_at_a_failed_pipeline DemoFailures.lib_no_hub Demo.world0
           "hf_demo" "OSError" "hub unreachable"); reflexivity.
Defined.

Lemma cache_resource_miss f w :
  resource_cache w = None ->
  cache_resource f w =
    match f w with
    | (Return r, w') => (Return r, with_resource_cache (Some r) w')
    | (Raise e, w') => (Raise e, w')
    end.
Proof. intros H. unfold cache_resource. by rewrite H. Qed.

Lemma main_until_models lib ui w :
  main lib ui w =
    (try_except
       (models ← cache_resource (load_models lib) ;
        st_success "✅ Models loaded successfully!" ;;
        mret models)
       (fun _ msg => st_error ("❌ Error loading models: " ++ msg) ;; st_stop)
     ≫= fun models =>
          let '(diarization_pipeline, transcription_model) := models in
          st_element "file_uploader" "Choose a WAV audio file" ;;
          main_tail lib ui diarization_pipeline transcription_model)
      (with_trace (trace w ++ main_intro_events)
         (with_session (init_session_state (session w)) w)).
Proof.
  unfold main, st_element, st_info. run. unfold main_intro_events.
  cbn [trace with_trace with_session]. rewrite <- !app_assoc. reflexivity.
Qed.

(** A run of [main] without a usable token, the models not loaded yet: the
    stop of [load_models] is not an [Exception], so the handler of [main]
    does not run; the page shows the one error of [load_models] and
    nothing after it. *)
Theorem main_stops_on_a_missing_token lib ui w :
  resource_cache w = None ->
  from_option PyStr.truthy false (environ w !! "HF_TOKEN") = false ->
  main lib ui w =
    (Raise StopException,
     with_trace (trace w ++ main_intro_events ++ [StError hf_missing_message])
       (with_session (init_session_state (session w)) w)).
Proof.
  intros Hres Htok. rewrite main_until_models.
  rewrite bind_run. unfold try_except. rewrite bind_run.
  rewrite cache_resource_miss by exact Hres.
  rewrite load_models_no_token_run by exact Htok.
  cbn [trace with_trace]. by rewrite <- app_assoc.
Qed.

Lemma main_stops_on_a_missing_token_witness :
  main Demo.lib (Demo.upload "talk.wav" "/tmp/a.wav" true false) Demo.world_no_token =
    (Raise StopException,
     with_trace (trace Demo.world_no_token ++ main_intro_events
                 ++ [StError hf_missing_message])
       (with_session (init_session_state (session Demo.world_no_token))
          Demo.world_no_token)).
Proof. apply main_stops_on_a_missing_token; reflexivity. Defined.

(** A run of [main] in which building the pipeline raises: the handler
    shows the message and stops the script; nothing is cached and the file
    uploader is not reached. *)
Theorem main_reports_a_failed_model_load lib ui w token cls msg :
  resource_cache w = None ->
  environ w !! "HF_TOKEN" = Some token ->
  PyStr.truthy token = true ->
  Pipeline_from_pretrained lib diarization_model_name (Some token) = Throws cls msg ->
  main lib ui w =
    (Raise StopException,
     with_trace (trace w ++ main_intro_events ++
                 [TorchSetNumThreads 4;
                  PipelineFromPretrained diarization_model_name (Some token);
                  StError ("❌ Error loading models: " ++ msg)])
       (with_session (init_session_state (session w)) w)).
Proof.
  intros Hres Henv Htok Hfp. rewrite main_until_models.
  rewrite bind_run. unfold try_except. rewrite bind_run.
  rewrite cache_resource_miss by exact Hres.
  rewrite (load_models_failed_pipeline_run _ _ token cls msg) by done.
  unfold st_error. run. cbn [trace with_trace]. by rewrite <- !app_assoc.
Qed.

Lemma main_reports_a_failed_model_load_witness :
  main DemoFailures.lib_no_hub (Demo.upload "talk.wav" "/tmp/a.wav" true false)
    Demo.world0 =
    (Raise StopException,
     with_trace (trace Demo.world0 ++ main_intro_events ++
                 [TorchSetNumThreads 4;
                  PipelineFromPretrained diarization_model_name (Some "hf_demo");
                  StError ("❌ Error loading models: " ++ "hub unreachable")])
       (with_session (init_session_state (session Demo.world0)) Demo.world0)).
Proof.
  apply (main_reports_a_failed_model_load DemoFailures.lib_no_hub
           (Demo.upload "talk.wav" "/tmp/a.wav" true false) Demo.world0
           "hf_demo" "OSError" "hub unreachable"); reflexivity.
Defined.

Lemma process_audio_emits_at lib dp tm p w0 :
  trace w0 = [] ->
  emits (process_audio lib dp tm p)
    (process_audio lib dp tm p w0).1 (trace (process_audio lib dp tm p w0).2).
Proof.
  intros Hnil.
  destruct (process_audio_run lib dp tm p) as (r & evs & Hemits & _).
  rewrite (Hemits w0). cbn [fst snd trace with_trace]. by rewrite Hnil.
Qed.

(** ** More on [process_audio] *)

(** When the pipeline and the loader return and every turn is answered
    (both sample indices exist and the model returns a text),
    [process_audio] returns: the progress updates are 1/n, 2/n, ..., n/n
    and none of them is refused. *)
Theorem process_audio_returns_when_every_turn_is_answered
    lib dp tm p tracks y sr :
  dp p = Returns tracks ->
  librosa_load lib p 16000 = Returns (y, sr) ->
  Forall (answered tm y sr) tracks ->
  exists evs,
    emits (process_audio lib dp tm p)
      (Return (omap (record_of tm y sr) tracks, y, sr)) evs /\
    progress_updates evs =
      map (fun j => (1 + Z.of_nat j, Z.of_nat (length tracks))) (seq 0 (length tracks)).
Proof.
  intros Hdp Hload Hall.
  destruct (process_audio_run lib dp tm p) as (r & evs & Hemits & Hr).
  rewrite Hdp, Hload in Hr. exists evs.
  destruct r as [[[segs y'] sr']|e].
  - by destruct Hr as (-> & -> & _ & -> & _ & Hprog).
  - destruct Hr as (j & tr & cls & msg & Hj & _ & Hthrow & _).
    apply list_elem_of_lookup_2 in Hj.
    rewrite Forall_forall in Hall. destruct (Hall tr Hj) as [text Htext].
    congruence.
Qed.

Lemma process_audio_returns_when_every_turn_is_answered_witness :
  exists evs,
    emits (process_audio Demo.lib Demo.diarization_pipeline Demo.transcription_model
             "/tmp/a.wav")
      (Return (omap (record_of Demo.transcription_model Demo.waveform 16000)
                 Demo.diarization, Demo.waveform, 16000)) evs /\
    progress_updates evs = [(1, 3); (2, 3); (3, 3)].
Proof.
  apply (process_audio_returns_when_every_turn_is_answered Demo.lib
           Demo.diarization_pipeline Demo.transcription_model "/tmp/a.wav"
           Demo.diarization Demo.waveform 16000).
  - reflexivity.
  - reflexivity.
  - repeat constructor; eexists; vm_compute; reflexivity.
Defined.

(** When a turn cannot be answered, [process_audio] raises the exception
    of the first such turn, an [Exception]; the turns before it were
    answered, and nothing is returned for them. *)
Theorem process_audio_raises_the_first_failure lib dp tm p tracks y sr e evs :
  dp p = Returns tracks ->
  librosa_load lib p 16000 = Returns (y, sr) ->
  emits (process_audio lib dp tm p) (Raise e) evs ->
  exists j tr cls msg,
    tracks !! j = Some tr /\
    Forall (answered tm y sr) (take j tracks) /\
    turn_text tm y sr tr = Throws cls msg /\
    e = Exception cls msg.
Proof.
  intros Hdp Hload Hemits.
  destruct (process_audio_run lib dp tm p) as (r & evs' & Hemits' & Hr).
  destruct (emits_functional _ _ _ _ _ Hemits Hemits') as [<- <-].
  rewrite Hdp, Hload in Hr.
  destruct Hr as (j & tr & cls & msg & Hj & Hans & Hthrow & -> & _).
  by exists j, tr, cls, msg.
Qed.

Lemma process_audio_raises_the_first_failure_witness :
  exists j tr cls msg,
    DemoFailures.late_diarization !! j = Some tr /\
    Forall (answered Demo.transcription_model Demo.waveform 16000)
      (take j DemoFailures.late_diarization) /\
    turn_text Demo.transcription_model Demo.waveform 16000 tr = Throws cls msg /\
    Exception "RuntimeError" "empty audio" = Exception cls msg.
Proof.
  pose proof (process_audio_emits_at Demo.lib DemoFailures.late_pipeline
                Demo.transcription_model "/tmp/late.wav" Demo.world0 eq_refl) as H.
  assert (E : (process_audio Demo.lib DemoFailures.late_pipeline
                 Demo.transcription_model "/tmp/late.wav" Demo.world0).1
              = Raise (Exception "RuntimeError" "empty audio"))
    by (vm_compute; reflexivity).
  rewrite E in H.
  apply (process_audio_raises_the_first_failure Demo.lib DemoFailures.late_pipeline
           Demo.transcription_model "/tmp/late.wav" DemoFailures.late_diarization
           Demo.waveform 16000 _ _ eq_refl eq_refl H).
Defined.

Lemma process_audio_drops_empty_turns_witness :
  Demo.segments = omap (record_of Demo.transcription_model Demo.waveform 16000)
                    Demo.diarization /\
  Forall (fun tr =>
            turn_text Demo.transcription_model Demo.waveform 16000 tr = Returns "" ->
            record_of Demo.transcription_model Demo.waveform 16000 tr = None)
    Demo.diarization /\
  Forall (fun seg => PyStr.truthy (seg_text seg) = true) Demo.segments.
Proof.
  apply (process_audio_drops_empty_turns Demo.lib Demo.diarization_pipeline
           Demo.transcription_model "/tmp/a.wav" Demo.diarization Demo.world0
           Demo.segments Demo.waveform 16000
           (process_audio Demo.lib Demo.diarization_pipeline
              Demo.transcription_model "/tmp/a.wav" Demo.world0).2).
  - reflexivity.
  - vm_compute. reflexivity.
Defined.






(** ** More on the upload block *)

Lemma files_after_cleanup tmp content (f : gmap string string) :
  delete tmp (<[tmp := content]> f) = delete tmp f.
Proof. apply delete_insert_eq. Qed.

(** Every way through the upload block: a cache hit, a processing that
    returns, a processing that raises. *)
Lemma process_upload_run lib dp tm name content tmp w :
  exists r evs,
    emits (process_audio lib dp tm tmp) r evs /\
    process_upload lib dp tm name content tmp w =
      (Return tt,
       with_files (delete tmp (files w))
         match data_cache w !! tmp with
         | Some (segs, y, sr) =>
             with_session
               {| processed_segments := Value segs; processed_audio_data := Value y;
                  processed_sample_rate := Value sr;
                  processed_file_name := Value name |} w
         | None =>
             match r with
             | Return (segs, y, sr) =>
                 with_session
                   {| processed_segments := Value segs;
                      processed_audio_data := Value y;
                      processed_sample_rate := Value sr;
                      processed_file_name := Value name |}
                   (with_data_cache (<[tmp := (segs, y, sr)]> (data_cache w))
                      (with_trace (trace w ++ evs) w))
             | Raise (Exception _ msg) =>
                 with_trace (trace w ++ evs ++
                             [StError ("❌ Error processing audio: " ++ msg)]) w
             | Raise _ => w
             end
         end).
Proof.
  destruct (process_audio_run lib dp tm tmp) as (r & evs & Hemits & _).
  exists r, evs. split; [done|].
  unfold process_upload. rewrite run_bind_modify.
  unfold try_finally, try_except. rewrite bind_run.
  unfold cache_data. cbn [data_cache with_files].
  destruct (data_cache w !! tmp) as [[[segs y] sr]|] eqn:Hhit.
  - cbn [store_result modify]. rewrite cleanup_run.
    cbn [files with_files with_session]. by rewrite files_after_cleanup.
  - rewrite Hemits. destruct r as [[[segs y] sr]|e].
    + cbn [store_result modify]. rewrite cleanup_run.
      cbn [files with_files with_session with_data_cache with_trace].
      by rewrite files_after_cleanup.
    + destruct (process_audio_raises_exception _ _ _ _ _ _ Hemits) as (cls & msg & ->).
      unfold st_error. cbn [emit]. rewrite cleanup_run.
      cbn [files with_files with_trace trace].
      by rewrite files_after_cleanup, <- app_assoc.
Qed.


(** A path already in the cache of [process_audio]: the upload block
    stores the cached result under the new file name, whatever was
    uploaded, and hands no sample to the transcription model; the cache
    key is the path alone. The statement is about the session, the files,
    the cache and the model calls only: it does not speak of the page
    elements of the run. *)
Theorem process_upload_cache_hit lib dp tm name content tmp w segs y sr :
  data_cache w !! tmp = Some (segs, y, sr) ->
  exists w',
    process_upload lib dp tm name content tmp w = (Return tt, w') /\
    session w' =
      {| processed_segments := Value segs; processed_audio_data := Value y;
         processed_sample_rate := Value sr; processed_file_name := Value name |} /\
    files w' = delete tmp (files w) /\
    data_cache w' = data_cache w /\
    transcribed (added w w') = [].
Proof.
  intros Hhit.
  destruct (process_upload_run lib dp tm name content tmp w) as (r & evs & _ & ->).
  rewrite Hhit. eexists. split; [reflexivity|].
  cbn [session files data_cache trace with_files with_session with_data_cache with_trace].
  repeat split.
  unfold added. cbn [trace with_files with_session with_data_cache with_trace].
  by rewrite drop_all.
Qed.

Lemma process_upload_cache_hit_witness :
  exists w',
    process_upload Demo.lib Demo.diarization_pipeline Demo.transcription_model
      "other.wav" "RIFF-other" "/tmp/a.wav" Demo.world_processed = (Return tt, w') /\
    session w' =
      {| processed_segments := Value Demo.segments;
         processed_audio_data := Value Demo.waveform;
         processed_sample_rate := Value 16000;
         processed_file_name := Value "other.wav" |} /\
    files w' = delete "/tmp/a.wav" (files Demo.world_processed) /\
    data_cache w' = data_cache Demo.world_processed /\
    transcribed (added Demo.world_processed w') = [].
Proof.
  apply process_upload_cache_hit. vm_compute. reflexivity.
Defined.

(** A processing that returns: the four session fields hold the result
    and the uploaded name, the result is cached under the temporary path,
    and the events are those of [process_audio] alone. *)
Theorem process_upload_stores_the_result
    lib dp tm name content tmp w segs y sr evs :
  data_cache w !! tmp = None ->
  emits (process_audio lib dp tm tmp) (Return (segs, y, sr)) evs ->
  exists w',
    process_upload lib dp tm name content tmp w = (Return tt, w') /\
    session w' =
      {| processed_segments := Value segs; processed_audio_data := Value y;
         processed_sample_rate := Value sr; processed_file_name := Value name |} /\
    data_cache w' = <[tmp := (segs, y, sr)]> (data_cache w) /\
    added w w' = evs /\
    files w' !! tmp = None.
Proof.
  intros Hmiss Hemits.
  destruct (process_upload_run lib dp tm name content tmp w) as (r & evs' & Hemits' & Hrun).
  destruct (emits_functional _ _ _ _ _ Hemits Hemits') as [<- <-].
  unfold process_result in *. rewrite Hmiss in Hrun. eexists. split; [exact Hrun|].
  cbn [session data_cache files with_files with_session with_data_cache with_trace].
  repeat split.
  - unfold added. cbn [trace with_files with_session with_data_cache with_trace].
    by rewrite drop_app_length.
  - apply lookup_delete_eq.
Qed.

Lemma process_upload_stores_the_result_witness :
  exists w',
    process_upload Demo.lib Demo.diarization_pipeline Demo.transcription_model
      "talk.wav" "RIFF" "/tmp/a.wav" Demo.world0 = (Return tt, w') /\
    session w' =
      {| processed_segments := Value Demo.segments;
         processed_audio_data := Value Demo.waveform;
         processed_sample_rate := Value 16000;
         processed_file_name := Value "talk.wav" |} /\
    data_cache w' = <[ "/tmp/a.wav" := (Demo.segments, Demo.waveform, 16000) ]>
                      (data_cache Demo.world0) /\
    added Demo.world0 w' =
      trace (process_audio Demo.lib Demo.diarization_pipeline
               Demo.transcription_model "/tmp/a.wav" Demo.world0).2 /\
    files w' !! "/tmp/a.wav" = None.
Proof.
  apply process_upload_stores_the_result.
  - reflexivity.
  - pose proof (process_audio_emits_at Demo.lib Demo.diarization_pipeline
                  Demo.transcription_model "/tmp/a.wav" Demo.world0 eq_refl) as H.
    assert (E : (process_audio Demo.lib Demo.diarization_pipeline
                   Demo.transcription_model "/tmp/a.wav" Demo.world0).1
                = Return (Demo.segments, Demo.waveform, 16000))
      by (vm_compute; reflexivity).
    rewrite E in H. exact H.
Defined.

(** ** What [main] shows *)

(** A run of [main] without an uploaded file (models cached): the page
    ends on the invitation to upload and the about text; nothing is
    processed, and the session is only initialised. *)
Theorem main_without_upload lib ui w dp tm :
  resource_cache w = Some (dp, tm) ->
  uploaded_file ui = None ->
  main lib ui w =
    (Return tt,
     with_trace (trace w ++ main_head_events ++
                 [StInfo "👆 Please upload a WAV audio file to get started!";
                  StElement "markdown" about_markdown])
       (with_session (init_session_state (session w)) w)).
Proof.
  intros Hres Hup. rewrite (main_with_cached_models _ _ _ _ _ Hres).
  unfold main_tail. rewrite Hup. unfold st_info, st_element, main_head_world. run.
  unfold emit. cbn [trace with_trace with_session]. by rewrite <- !app_assoc.
Qed.

(** A run of [main] with a file uploaded, no button clicked and no result
    in the session: the Process button is offered, the Clear button is
    not, and the page ends on the prompt to click Process. *)
Theorem main_prompts_before_processing lib ui w dp tm name content :
  resource_cache w = Some (dp, tm) ->
  uploaded_file ui = Some (name, content) ->
  process_button ui = false ->
  is_not_None (processed_segments (session w)) = false ->
  main lib ui w =
    (Return tt,
     with_trace (trace w ++ main_head_events ++
                 [StSuccess ("✅ File uploaded: " ++ name);
                  StElement "button" "🚀 Process Audio";
                  StInfo "👆 Click the **Process Audio** button above to start diarization and transcription!"])
       (with_session (init_session_state (session w)) w)).
Proof.
  intros Hres Hup Hproc Hnone. rewrite (main_with_cached_models _ _ _ _ _ Hres).
  unfold main_tail. rewrite Hup, Hproc. unfold st_success, st_element, main_head_world.
  run. cbn [session with_trace with_session init_session_state processed_segments].
  assert (Hinit : is_not_None (init_slot (processed_segments (session w))) = false).
  { by destruct (processed_segments (session w)). }
  rewrite Hinit. run. unfold show_results. rewrite run_bind_gets.
  cbn [session with_trace with_session init_session_state processed_segments].
  destruct (processed_segments (session w)) as [| |segs]; [| |done];
    unfold st_info, emit; cbn [init_slot trace with_trace with_session];
    by rewrite <- !app_assoc.
Qed.

Lemma main_prompts_before_processing_witness :
  main Demo.lib (Demo.upload "talk.wav" "/tmp/a.wav" false false) DemoFailures.world_loaded =
    (Return tt,
     with_trace (trace DemoFailures.world_loaded ++ main_head_events ++
                 [StSuccess ("✅ File uploaded: " ++ "talk.wav");
                  StElement "button" "🚀 Process Audio";
                  StInfo "👆 Click the **Process Audio** button above to start diarization and transcription!"])
       (with_session (init_session_state (session DemoFailures.world_loaded))
          DemoFailures.world_loaded)).
Proof.
  apply (main_prompts_before_processing Demo.lib
           (Demo.upload "talk.wav" "/tmp/a.wav" false false) DemoFailures.world_loaded
           Demo.diarization_pipeline Demo.transcription_model
           "talk.wav" "RIFF....WAVE"); reflexivity.
Defined.

Lemma main_without_upload_witness :
  main Demo.lib {| uploaded_file := None; process_button := false;
                   clear_button := false; tmp_path := "/tmp/x.wav" |}
    Demo.world_processed =
    (Return tt,
     with_trace (trace Demo.world_processed ++ main_head_events ++
                 [StInfo "👆 Please upload a WAV audio file to get started!";
                  StElement "markdown" about_markdown])
       (with_session (init_session_state (session Demo.world_processed))
          Demo.world_processed)).
Proof.
  apply (main_without_upload Demo.lib _ _ Demo.diarization_pipeline
           Demo.transcription_model).
  - vm_compute. reflexivity.
  - reflexivity.
Defined.

(** ** The display *)

(** The display of stored segments when the audio cannot be encoded: the
    exception of the encoder leaves [show_results] (no handler is around
    it in [main]); the banner and the player heading were drawn, no
    segment card and no download button. *)
Theorem show_results_fails_with_the_encoder lib w seg segs y sr cls msg :
  processed_segments (session w) = Value (seg :: segs) ->
  processed_audio_data (session w) = Value y ->
  processed_sample_rate (session w) = Value sr ->
  soundfile_write lib (Value y) (Value sr) = Throws cls msg ->
  exists banner,
    show_results lib w =
      (Raise (Exception cls msg),
       with_trace (trace w ++ [StSuccess banner;
                               StElement "subheader" "🎵 Audio Player";
                               SoundfileWrite y sr]) w).
Proof.
  intros Hsegs Hy Hsr Hsf.
  unfold show_results. rewrite run_bind_gets, Hsegs, Hy, Hsr.
  unfold st_success, display_transcription_with_audio, create_audio_bytes, st_element.
  eexists. run. rewrite (run_bind_lift_throws _ _ _ _ _ Hsf).
  cbn [trace with_trace]. rewrite <- !app_assoc. reflexivity.
Qed.



Lemma show_results_fails_with_the_encoder_witness :
  exists banner,
    show_results DemoFailures.lib_no_encoder Demo.world_processed =
      (Raise (Exception "RuntimeError" "cannot encode"),
       with_trace (trace Demo.world_processed ++
                   [StSuccess banner; StElement "subheader" "🎵 Audio Player";
                    SoundfileWrite Demo.waveform 16000]) Demo.world_processed).
Proof.
  apply (show_results_fails_with_the_encoder DemoFailures.lib_no_encoder
           Demo.world_processed
           {| seg_start := Demo.tick 0; seg_end := Demo.tick 1;
              seg_speaker := "SPEAKER_00"; seg_text := "hello" |}
           [ {| seg_start := Demo.tick 3; seg_end := Demo.tick 4;
                seg_speaker := "SPEAKER_00"; seg_text := "world" |} ]
           Demo.waveform 16000 "RuntimeError" "cannot encode").
  - vm_compute. reflexivity.
  - vm_compute. reflexivity.
  - vm_compute. reflexivity.
  - reflexivity.
Defined.


(** ** More on the batch scripts *)

(** [main.py] hands whatever [os.getenv] gave, [None] included, to
    [Pipeline.from_pretrained]; when that call raises, the script ends
    with its exception, after the first console line, and the output file
    is neither created nor truncated. *)
Theorem main_py_fails_before_writing lib w cls msg :
  Pipeline_from_pretrained lib diarization_model_name (environ w !! "HF_TOKEN")
    = Throws cls msg ->
  exists w',
    main_py lib w = (Raise (Exception cls msg), w') /\
    added w w' = [ TorchSetNumThreads 4;
                   PrintLine "Step 1: Performing Speaker Diarization...";
                   PipelineFromPretrained diarization_model_name
                     (environ w !! "HF_TOKEN") ] /\
    files w' = files w /\
    PyStr.path_join (ROOT_FOLDER lib) OUTPUT_FOLDER ∈ dirs w'.
Proof.
  intros Hfp. unfold main_py, print. rewrite run_bind_ensure_dir. run.
  cbn [environ with_trace with_dirs].
  rewrite (run_bind_lift_throws _ _ _ _ _ Hfp).
  eexists. split; [reflexivity|]. unfold added.
  cbn [files dirs trace with_trace with_dirs]. repeat split.
  - rewrite <- !app_assoc. by rewrite drop_app_length.
  - case_bool_decide; set_solver.
Qed.

Lemma main_py_fails_before_writing_witness :
  exists w',
    main_py Demo.lib Demo.world_no_token
      = (Raise (Exception "OSError" "401 Unauthorized"), w') /\
    added Demo.world_no_token w'
      = [ TorchSetNumThreads 4;
          PrintLine "Step 1: Performing Speaker Diarization...";
          PipelineFromPretrained diarization_model_name
            (environ Demo.world_no_token !! "HF_TOKEN") ] /\
    files w' = files Demo.world_no_token /\
    PyStr.path_join (ROOT_FOLDER Demo.lib) OUTPUT_FOLDER ∈ dirs w'.
Proof. apply main_py_fails_before_writing. reflexivity. Defined.





(** [diarize.py] when the pipeline run raises: nothing is printed and no
    file is opened. *)
Theorem diarize_py_fails_silently lib w pl cls msg :
  Pipeline_from_pretrained lib diarization_model_name (environ w !! "HF_TOKEN")
    = Returns pl ->
  pl (diarize_py_audio_path lib) = Throws cls msg ->
  diarize_py lib w =
    (Raise (Exception cls msg),
     with_trace (trace w ++
       [ PipelineFromPretrained diarization_model_name (environ w !! "HF_TOKEN");
         RunPipeline (diarize_py_audio_path lib) ]) w).
Proof.
  intros Hfp Hpl. unfold diarize_py, diarize_py_audio_path in *. run.
  rewrite (run_bind_lift_returns _ _ _ _ Hfp). run.
  rewrite (run_bind_lift_throws _ _ _ _ _ Hpl).
  cbn [trace with_trace]. by rewrite <- !app_assoc.
Qed.


Lemma diarize_py_fails_silently_witness :
  diarize_py DemoFailures.lib_bad_audio Demo.world0 =
    (Raise (Exception "ValueError" "not a WAV file"),
     with_trace (trace Demo.world0 ++
       [ PipelineFromPretrained diarization_model_name
           (environ Demo.world0 !! "HF_TOKEN");
         RunPipeline (diarize_py_audio_path DemoFailures.lib_bad_audio) ])
       Demo.world0).
Proof.
  apply (diarize_py_fails_silently DemoFailures.lib_bad_audio Demo.world0
           DemoFailures.bad_audio_pipeline "ValueError" "not a WAV file");
    reflexivity.
Defined.

(** ** The session across runs *)





Lemma process_audio_texts lib dp tm p segs y sr evs :
  emits (process_audio lib dp tm p) (Return (segs, y, sr)) evs -> texts_not_empty segs.
Proof.
  intros Hemits.
  destruct (process_audio_run lib dp tm p) as (r & evs' & Hemits' & Hr).
  destruct (emits_functional _ _ _ _ _ Hemits Hemits') as [<- <-].
  destruct (dp p) as [tracks|]; [|by destruct Hr].
  destruct (librosa_load lib p 16000) as [[y0 sr0]|]; [|by destruct Hr].
  destruct Hr as (_ & _ & _ & -> & _).
  apply Forall_forall. intros seg Hin.
  apply list_elem_of_omap in Hin as (tr & _ & Hrec).
  by apply record_of_Some in Hrec as (_ & _ & ?).
Qed.

Lemma upload_block_keeps_texts lib dp tm name content tmp :
  keeps no_empty_text (process_upload lib dp tm name content tmp) (fun _ => True).
Proof.
  intros w [Hcache Hsess].
  destruct (process_upload_run lib dp tm name content tmp w) as (r & evs & Hemits & ->).
  cbn [fst snd]. split; [|done].
  destruct (data_cache w !! tmp) as [[[segs y] sr]|] eqn:Hhit.
  - split; [done|]. cbn. intros ? [= <-]. by apply (Hcache _ _ Hhit).
  - destruct r as [[[segs y] sr]|[cls msg| |]]; try done.
    pose proof (process_audio_texts _ _ _ _ _ _ _ _ Hemits) as Hsegs.
    split.
    + intros q r. cbn [data_cache with_files with_session with_data_cache].
      rewrite lookup_insert. case_decide; [by intros [= <-]|]. apply Hcache.
    + cbn. by intros ? [= <-].
Qed.

Lemma main_keeps_texts lib ui : keeps no_empty_text (main lib ui) (fun _ => True).
Proof.
  unfold main, st_element, st_info.
  do 3 (eapply keeps_bind; [by apply keeps_emit|intros _ _]).
  eapply keeps_bind.
  { apply keeps_modify. intros w [Hcache Hsess]. split; [done|].
    cbn [session with_session init_session_state processed_segments].
    intros segs. destruct (processed_segments (session w)) eqn:E; try done.
    cbn [init_slot]. intros [= <-]. by apply Hsess. }
  intros _ _.
  do 2 (eapply keeps_bind; [by apply keeps_emit|intros _ _]).
  eapply keeps_bind; [by apply models_block_keeps|].
  intros [dp tm] _. cbn beta iota.
  eapply keeps_bind; [by apply keeps_emit|intros _ _].
  destruct (uploaded_file ui) as [[name content]|].
  - unfold st_success.
    do 2 (eapply keeps_bind; [by apply keeps_emit|intros _ _]).
    eapply keeps_bind; [apply keeps_gets|intros segs _].
    eapply keeps_bind.
    { apply keeps_when. eapply keeps_bind; [by apply keeps_emit|intros _ _].
      apply keeps_when. intros w [Hcache _]. rewrite clear_results_run.
      split; [|done]. split; [done|]. by cbn. }
    intros _ _.
    eapply keeps_bind; [apply keeps_when, upload_block_keeps_texts|].
    intros _ _. by apply show_results_keeps.
  - eapply keeps_bind; [by apply keeps_emit|intros _ _]. by apply keeps_emit.
Qed.

(** In every world the app can reach, no record held in the session or in
    the cache of [process_audio] has an empty text: what the page renders
    and what the download offers never shows a turn without words. *)
Theorem stored_records_have_a_text lib w segs :
  reachable lib w ->
  processed_segments (session w) = Value segs ->
  Forall (fun seg => PyStr.truthy (seg_text seg) = true) segs.
Proof.
  intros Hreach. revert segs.
  assert (H : no_empty_text w); [|by destruct H].
  induction Hreach as [w (Hs & Hc & _)|w ui _ IH].
  - split.
    + intros p r. by rewrite Hc, lookup_empty.
    + intros segs. by rewrite Hs.
  - by apply (main_keeps_texts lib ui w IH).
Qed.

Lemma stored_records_have_a_text_witness :
  Forall (fun seg => PyStr.truthy (seg_text seg) = true) Demo.segments.
Proof.
  apply (stored_records_have_a_text Demo.lib Demo.world_processed).
  - apply reachable_run. apply reachable_fresh. by repeat split.
  - vm_compute. reflexivity.
Defined.

(** ** [transcribe.py] *)

Lemma transcribe_py_segments_emits segs :
  emits (transcribe_py_segments segs) (Return tt)
    (map (fun seg => PrintLine (transcribe_py_line seg)) segs).
Proof.
  induction segs as [|seg rest IH]; [apply emits_ret|].
  cbn [transcribe_py_segments map]. unfold print. by apply emits_bind_emit.
Qed.

(** [transcribe.py] when the model loads and the transcription returns:
    the console shows the full text as the model gave it, then one line
    per segment of the result, in order, with the times at two decimals
    and the segment text stripped; the output file holds the JSON of the
    result and nothing else, whatever it held before; the output folder
    exists. *)
Theorem transcribe_py_prints_and_dumps lib (tr : Transcriber) w model result :
  whisper_load_model lib "base" "cpu" = Returns model ->
  transcribe_path tr (transcribe_py_audio_path lib) = Returns result ->
  exists w',
    transcribe_py lib tr w = (Return tt, w') /\
    added w w' =
      ([ PrintLine "Loading Whisper model (base)...";
         WhisperLoadModel "base" "cpu";
         PrintLine "Model loaded.";
         PrintLine (PyStr.newline ++ "Transcribing "
                    ++ transcribe_py_audio_path lib ++ "...");
         PrintLine "Transcription complete.";
         PrintLine (PyStr.newline ++ "--- Full Transcription Text ---");
         PrintLine (result_text tr result);
         PrintLine (PyStr.newline
                    ++ "--- Transcription with Timestamps (No Speaker Labels) ---") ] ++
       map (fun seg => PrintLine (transcribe_py_line seg))
           (result_segments tr result))%list /\
    files w' !! transcribe_py_output_path lib = Some (json_dump tr result) /\
    PyStr.path_join (ROOT_FOLDER lib) OUTPUT_FOLDER ∈ dirs w'.
Proof.
  intros Hload Htr. unfold transcribe_py, print, open_w, file_write.
  rewrite run_bind_ensure_dir. run.
  rewrite (run_bind_lift_returns _ _ _ _ Hload). run.
  rewrite (run_bind_lift_returns _ _ _ _ Htr). run.
  rewrite bind_run, (transcribe_py_segments_emits (result_segments tr result)). run.
  eexists. split; [reflexivity|]. unfold added.
  cbn [files dirs trace with_files with_trace with_dirs modify].
  repeat split.
  - rewrite <- !app_assoc. by rewrite drop_app_length.
  - rewrite !lookup_insert_eq. reflexivity.
  - case_bool_decide; set_solver.
Qed.

Lemma transcribe_py_prints_and_dumps_witness :
  exists w',
    transcribe_py Demo.lib DemoTranscriber.tr Demo.world0 = (Return tt, w') /\
    added Demo.world0 w' =
      ([ PrintLine "Loading Whisper model (base)...";
         WhisperLoadModel "base" "cpu";
         PrintLine "Model loaded.";
         PrintLine (PyStr.newline ++ "Transcribing "
                    ++ transcribe_py_audio_path Demo.lib ++ "...");
         PrintLine "Transcription complete.";
         PrintLine (PyStr.newline ++ "--- Full Transcription Text ---");
         PrintLine (result_text DemoTranscriber.tr DemoTranscriber.demo_result);
         PrintLine (PyStr.newline
                    ++ "--- Transcription with Timestamps (No Speaker Labels) ---") ] ++
       map (fun seg => PrintLine (transcribe_py_line seg))
           (result_segments DemoTranscriber.tr DemoTranscriber.demo_result))%list /\
    files w' !! transcribe_py_output_path Demo.lib
      = Some (json_dump DemoTranscriber.tr DemoTranscriber.demo_result) /\
    PyStr.path_join (ROOT_FOLDER Demo.lib) OUTPUT_FOLDER ∈ dirs w'.
Proof.
  apply (transcribe_py_prints_and_dumps Demo.lib DemoTranscriber.tr Demo.world0
           Demo.transcription_model DemoTranscriber.demo_result); reflexivity.
Defined.

(** [transcribe.py] when the transcription raises: the script ends with
    that exception; the output folder was made, no file was opened. *)
Theorem transcribe_py_writes_nothing_on_failure lib (tr : Transcriber) w model cls msg :
  whisper_load_model lib "base" "cpu" = Returns model ->
  transcribe_path tr (transcribe_py_audio_path lib) = Throws cls msg ->
  exists w',
    transcribe_py lib tr w = (Raise (Exception cls msg), w') /\
    files w' = files w /\
    PyStr.path_join (ROOT_FOLDER lib) OUTPUT_FOLDER ∈ dirs w'.
Proof.
  intros Hload Htr. unfold transcribe_py, print.
  rewrite run_bind_ensure_dir. run.
  rewrite (run_bind_lift_returns _ _ _ _ Hload). run.
  rewrite (run_bind_lift_throws _ _ _ _ _ Htr).
  eexists. split; [reflexivity|].
  cbn [files dirs with_trace with_dirs]. split; [done|].
  case_bool_decide; set_solver.
Qed.

Lemma transcribe_py_writes_nothing_on_failure_witness :
  exists w',
    transcribe_py Demo.lib DemoTranscriber.tr_failing Demo.world0
      = (Raise (Exception "RuntimeError" "ffmpeg not found"), w') /\
    files w' = files Demo.world0 /\
    PyStr.path_join (ROOT_FOLDER Demo.lib) OUTPUT_FOLDER ∈ dirs w'.
Proof.
  apply (transcribe_py_writes_nothing_on_failure Demo.lib DemoTranscriber.tr_failing
           Demo.world0 Demo.transcription_model); reflexivity.
Defined.

(** ** The window of a turn *)

Lemma binary_round_aux_sign sx mx ex lx :
  match binary_round_aux PyFloat.prec PyFloat.emax sx mx ex lx with
  | S754_finite s _ _ => s = sx
  | _ => True
  end.
Proof.
  unfold binary_round_aux.
  destruct (shr_fexp _ _ mx ex lx) as [mrs' e'].
  destruct (shr_fexp _ _ _ e' loc_Exact) as [mrs'' e''].
  destruct (shr_m mrs''); [done| |done].
  by destruct (Z.leb _ _).
Qed.

Lemma of_scaled_nonneg n :
  0 <= n ->
  match PyFloat.of_scaled n 0 with
  | S754_finite s _ _ => s = false
  | _ => True
  end.
Proof.
  intros Hn. unfold PyFloat.of_scaled, binary_normalize.
  destruct n as [|m|m]; [done| |lia].
  unfold binary_round. destruct (shl_align _ _ _) as [mz ez].
  apply binary_round_aux_sign.
Qed.

Lemma trunc_nonneg x n :
  PyFloat.trunc x = Some n ->
  match x with S754_finite true _ _ => False | _ => True end ->
  0 <= n.
Proof.
  destruct x as [s|s| |[] m e]; cbn; try done.
  - by intros [= <-].
  - intros [= <-] _. destruct (0 <=? e) eqn:He.
    + apply Z.leb_le in He. apply Z.mul_nonneg_nonneg; [lia|]. by apply Z.pow_nonneg.
    + apply Z.div_pos; [lia|]. apply Z.pow_pos_nonneg; [lia|].
      apply Z.leb_gt in He. lia.
Qed.

Lemma sample_index_nonneg t sr a :
  nonneg_time t -> 0 <= sr -> sample_index t sr = Returns a -> 0 <= a.
Proof.
  intros Ht Hsr. unfold sample_index, py_float_of_int.
  pose proof (of_scaled_nonneg sr Hsr) as Hsrf.
  destruct (PyFloat.of_scaled sr 0) as [s2|s2| |s2 m2 e2] eqn:Esr; try done.
  - unfold py_int.
    destruct (PyFloat.mul t (S754_zero s2)) as [s|s| |[] m e] eqn:Emul;
      cbn; try done; try (by intros [= <-]).
    + destruct t as [s1|s1| |[] m1 e1]; cbn in Emul, Ht; done.
    + intros [= <-]. eapply (trunc_nonneg (S754_finite false m e)); [reflexivity|done].
  - unfold py_int.
    destruct (PyFloat.mul t S754_nan) as [s|s| |[] m e] eqn:Emul;
      cbn; try done; try (by intros [= <-]).
    + destruct t as [s1|s1| |[] m1 e1]; cbn in Emul, Ht; done.
    + intros [= <-]. eapply (trunc_nonneg (S754_finite false m e)); [reflexivity|done].
  - subst s2. unfold py_int.
    destruct (PyFloat.mul t (S754_finite false m2 e2)) as [s|s| |[] m e] eqn:Emul;
      cbn; try done; try (by intros [= <-]).
    + destruct t as [s1|s1| |[] m1 e1]; cbn in Emul, Ht; try done.
      pose proof (binary_round_aux_sign false
                    (Z.pos (m1 * m2)) (e1 + e2) loc_Exact) as Hsign.
      change (PyFloat.mul (S754_finite false m1 e1) (S754_finite false m2 e2))
        with (binary_round_aux PyFloat.prec PyFloat.emax false
                (Z.pos (m1 * m2)) (e1 + e2) loc_Exact) in Emul.
      by rewrite Emul in Hsign.
    + intros [= <-]. eapply (trunc_nonneg (S754_finite false m e)); [reflexivity|done].
Qed.

Lemma slice_window {A : Type} (y : list A) a b :
  0 <= a -> 0 <= b ->
  length (PySlice.slice y a b)
    = Z.to_nat (Z.min b (Z.of_nat (length y)) - Z.min a (Z.of_nat (length y))) /\
  forall k, (k < length (PySlice.slice y a b))%nat ->
    PySlice.slice y a b !! k = y !! (Z.to_nat a + k)%nat.
Proof.
  intros Ha Hb. unfold PySlice.slice, PySlice.bound.
  destruct (a <? 0) eqn:Ea; [apply Z.ltb_lt in Ea; lia|].
  destruct (b <? 0) eqn:Eb; [apply Z.ltb_lt in Eb; lia|].
  split.
  - rewrite length_take, length_drop. lia.
  - intros k. rewrite length_take, length_drop. intros Hk.
    rewrite lookup_take_lt by lia. rewrite lookup_drop. f_equal. lia.
Qed.

(** For a turn whose two times are not negative, the samples handed to
    the model are a window of the waveform: both indices are not
    negative, the slice starts at sample [int(start * sr)], stops before
    [int(end * sr)] or at the end of the waveform, and is empty when the
    turn starts at or after its end or after the end of the waveform. *)
Theorem turn_slice_is_a_window (y : list sample) sr t1 t2 a b :
  nonneg_time t1 -> nonneg_time t2 -> 0 <= sr ->
  sample_index t1 sr = Returns a ->
  sample_index t2 sr = Returns b ->
  0 <= a /\ 0 <= b /\
  length (PySlice.slice y a b)
    = Z.to_nat (Z.min b (Z.of_nat (length y)) - Z.min a (Z.of_nat (length y))) /\
  (length (PySlice.slice y a b) <= length y)%nat /\
  forall k, (k < length (PySlice.slice y a b))%nat ->
    PySlice.slice y a b !! k = y !! (Z.to_nat a + k)%nat.
Proof.
  intros H1 H2 Hsr Ha Hb.
  pose proof (sample_index_nonneg _ _ _ H1 Hsr Ha) as Ha0.
  pose proof (sample_index_nonneg _ _ _ H2 Hsr Hb) as Hb0.
  destruct (slice_window y a b Ha0 Hb0) as [Hlen Hlook].
  repeat split; try done. rewrite Hlen. lia.
Qed.

Lemma turn_slice_is_a_window_witness :
  0 <= 125 /\ 0 <= 375 /\
  length (PySlice.slice Demo.waveform 125 375)
    = Z.to_nat (Z.min 375 (Z.of_nat (length Demo.waveform))
                - Z.min 125 (Z.of_nat (length Demo.waveform))) /\
  (length (PySlice.slice Demo.waveform 125 375) <= length Demo.waveform)%nat /\
  forall k, (k < length (PySlice.slice Demo.waveform 125 375))%nat ->
    PySlice.slice Demo.waveform 125 375 !! k
      = Demo.waveform !! (Z.to_nat 125 + k)%nat.
Proof.
  apply (turn_slice_is_a_window Demo.waveform 16000 (Demo.tick 1) (Demo.tick 3)).
  - vm_compute. exact I.
  - vm_compute. exact I.
  - lia.
  - vm_compute. reflexivity.
  - vm_compute. reflexivity.
Defined.

(** ** A whole run that processes an upload *)

(** A click on Process for a path not in the cache, when [process_audio]
    returns at least one record and the audio can be encoded: the result
    and the uploaded name are in the session, the temporary file is gone,
    and the page ends on the download button, whose file is named after
    the upload and holds one transcript line per record. *)
Theorem main_processes_and_offers_the_download
    lib dp tm p y sr seg segs evs audio_bytes w name content :
  resource_cache w = Some (dp, tm) ->
  data_cache w !! p = None ->
  emits (process_audio lib dp tm p) (Return (seg :: segs, y, sr)) evs ->
  soundfile_write lib (Value y) (Value sr) = Returns audio_bytes ->
  exists w',
    main lib {| uploaded_file := Some (name, content); process_button := true;
                clear_button := false; tmp_path := p |} w = (Return tt, w') /\
    session w' =
      {| processed_segments := Value (seg :: segs); processed_audio_data := Value y;
         processed_sample_rate := Value sr; processed_file_name := Value name |} /\
    files w' !! p = None /\
    last (trace w') =
      Some (StDownloadButton "📥 Download Transcription"
              (transcription_text (seg :: segs))
              ("transcription_" ++ name ++ ".txt") "text/plain").
Proof.
  intros Hres Hmiss Hemits Hsf.
  rewrite (main_with_cached_models _ _ _ _ _ Hres), main_tail_process.
  rewrite bind_run.
  erewrite process_upload_success; [|exact Hmiss|exact Hemits].
  match goal with |- context [ show_results lib ?w1 ] =>
    destruct (show_results_run lib w1 seg segs y sr audio_bytes eq_refl eq_refl
                eq_refl Hsf) as (evs' & ->)
  end.
  eexists. split; [reflexivity|].
  cbn [session files trace with_files with_session with_data_cache with_trace
       processed_file_name slot_str].
  split; [done|]. split.
  - rewrite lookup_delete_eq. done.
  - rewrite transcription_text_spec. rewrite !app_assoc. by rewrite last_snoc.
Qed.

Lemma main_processes_and_offers_the_download_witness :
  exists w',
    main Demo.lib {| uploaded_file := Some ("talk.wav", "RIFF");
                     process_button := true; clear_button := false;
                     tmp_path := "/tmp/a.wav" |} DemoFailures.world_loaded
      = (Return tt, w') /\
    session w' =
      {| processed_segments := Value Demo.segments;
         processed_audio_data := Value Demo.waveform;
         processed_sample_rate := Value 16000;
         processed_file_name := Value "talk.wav" |} /\
    files w' !! "/tmp/a.wav" = None /\
    last (trace w') =
      Some (StDownloadButton "📥 Download Transcription"
              (transcription_text Demo.segments)
              ("transcription_" ++ "talk.wav" ++ ".txt") "text/plain").
Proof.
  pose proof (process_audio_emits_at Demo.lib Demo.diarization_pipeline
                Demo.transcription_model "/tmp/a.wav" Demo.world0 eq_refl) as H.
  assert (E : (process_audio Demo.lib Demo.diarization_pipeline
                 Demo.transcription_model "/tmp/a.wav" Demo.world0).1
              = Return (Demo.segments, Demo.waveform, 16000))
    by (vm_compute; reflexivity).
  rewrite E in H.
  apply (main_processes_and_offers_the_download Demo.lib Demo.diarization_pipeline
           Demo.transcription_model "/tmp/a.wav" Demo.waveform 16000 _ _ _ "RIFF"
           DemoFailures.world_loaded "talk.wav" "RIFF" eq_refl eq_refl H eq_refl).
Defined.
